(** * BirthdayInputField: a shallow embedding and its verified contract

    The development follows [src/components/BirthdayInputField/BirthdayInputField.js]:

    - [JS]      the parts of the host language the component calls
                ([parseInt], [Number.prototype.toString], [Date.UTC], the
                UTC getters) and lodash's [range];
    - [Composer] the pure helpers [pad], [parseNum], [isValidDate],
                [dateFromSelected], [selectedFromDate] and the option lists;
    - [Widget]  the [BirthdayInput] class, with its state, the window's
                timers and the callbacks it fires, as a transition system;
    - [Field]   the [BirthdayInputFieldComponent] wrapper. *)

From Stdlib Require Import ZArith Lia List Bool Ascii String.
Import ListNotations.

Local Open Scope string_scope.
Local Open Scope Z_scope.

(* ================================================================== *)
(** * The host language *)
(* ================================================================== *)

Module JS.

(** ** Numbers

    Every Number the component handles is [NaN], an infinity or an
    integer-valued double; [Int z] stands for the double whose value is
    the integer [z].  Negative zero is identified with zero: the component
    only compares numbers with [===], prints them and passes them to
    [Date.UTC], none of which tells the two apart. *)

Inductive number : Type :=
| NaN : number
| Inf (negative : bool) : number
| Int (z : Z) : number.

Definition number_eqb (a b : number) : bool :=
  match a, b with
  | Int x, Int y => x =? y
  | Inf s, Inf t => Bool.eqb s t
  | _, _ => false
  end.

(** [a === b] on two Numbers: [NaN] differs from everything. *)
Definition strict_eq : number -> number -> bool := number_eqb.

(** Rounding of a mathematical integer to the nearest double, ties to
    even (the conversion written F(x) in ECMA-262).  Integers below 2^53
    in magnitude are exact. *)
Definition to_double (z : Z) : number :=
  let a := Z.abs z in
  if a <? 2 ^ 53 then Int z
  else
    let e := Z.log2 a - 52 in
    let q := a / 2 ^ e in
    let r := a mod 2 ^ e in
    let h := 2 ^ (e - 1) in
    let q' := if r <? h then q
              else if h <? r then q + 1
              else if Z.even q then q else q + 1 in
    let v := q' * 2 ^ e in
    if 2 ^ 1024 <=? v then Inf (z <? 0) else Int (Z.sgn z * v).

(** [a + b] on Numbers. *)
Definition add (a b : number) : number :=
  match a, b with
  | NaN, _ | _, NaN => NaN
  | Inf s, Inf t => if Bool.eqb s t then Inf s else NaN
  | Inf s, Int _ | Int _, Inf s => Inf s
  | Int x, Int y => to_double (x + y)
  end.

(** [a - b] on Numbers. *)
Definition sub (a b : number) : number :=
  match b with
  | NaN => NaN
  | Inf s => add a (Inf (negb s))
  | Int y => add a (Int (- y))
  end.

(** [a >= b] and [a < b]: false as soon as one side is [NaN]. *)
Definition ltb (a b : number) : bool :=
  match a, b with
  | NaN, _ | _, NaN => false
  | Inf s, Inf t => s && negb t
  | Inf s, Int _ => s
  | Int _, Inf t => negb t
  | Int x, Int y => x <? y
  end.

Definition geb (a b : number) : bool :=
  match a, b with
  | NaN, _ | _, NaN => false
  | _, _ => negb (ltb a b)
  end.

(** [isNaN(x)] for a Number. *)
Definition isNaN (x : number) : bool :=
  match x with NaN => true | _ => false end.

(** ** Strings

    A string is a sequence of code units; the embedding covers the code
    units below 256. *)

Definition is_digit (c : ascii) : bool :=
  let n := Z.of_nat (nat_of_ascii c) in (48 <=? n) && (n <=? 57).

Definition digit_value (c : ascii) : Z := Z.of_nat (nat_of_ascii c) - 48.

Definition digit_char (d : Z) : ascii := ascii_of_nat (Z.to_nat (48 + d)).

(** [StrWhiteSpaceChar]: TAB, LF, VT, FF, CR, SP and NBSP. *)
Definition is_white (c : ascii) : bool :=
  let n := nat_of_ascii c in
  (Nat.leb 9 n && Nat.leb n 13) || Nat.eqb n 32 || Nat.eqb n 160.

Fixpoint trim_left (s : string) : string :=
  match s with
  | String c s' => if is_white c then trim_left s' else s
  | EmptyString => s
  end.

(** The longest prefix of decimal digits, as a list of digit values. *)
Fixpoint leading_digits (s : string) : list Z :=
  match s with
  | String c s' => if is_digit c then digit_value c :: leading_digits s' else []
  | EmptyString => []
  end.

(** Value of a digit list, most significant digit first. *)
Definition digits_value (ds : list Z) : Z :=
  fold_left (fun acc d => 10 * acc + d) ds 0.

(** [parseInt(string, 10)] applied to a string: leading white space is
    skipped, one sign is accepted, then the longest run of decimal digits
    is read; whatever follows is ignored.  No digit at all gives [NaN].
    Past twenty digits an engine may read zeros for the rest; here every
    digit counts. *)
Definition split_sign (s : string) : bool * string :=
  match s with
  | String "-" r => (true, r)
  | String "+" r => (false, r)
  | _ => (false, s)
  end.

Definition parseInt (s : string) : number :=
  let (negative, s2) := split_sign (trim_left s) in
  match leading_digits s2 with
  | [] => NaN
  | ds => to_double (if negative then - digits_value ds else digits_value ds)
  end.

(** Decimal digits of a non-negative integer. *)
Fixpoint digits_fuel (fuel : nat) (n : Z) : list Z :=
  match fuel with
  | O => []
  | S f => if n <? 10 then [n] else digits_fuel f (n / 10) ++ [n mod 10]
  end.

Definition digits_of (n : Z) : list Z :=
  digits_fuel (S (Z.to_nat (Z.log2 n))) n.

Definition string_of_digits (ds : list Z) : string :=
  fold_right (fun d s => String (digit_char d) s) EmptyString ds.

(** *** Exponent notation

    [Number::toString] prints a double [x >= 10^21] as [s * 10^(n-k)]
    with the fewest digits [k] such that the product rounds back to [x];
    among several [s] the closest to [x] wins, then the even one. *)

Definition sci_candidates (x k : Z) : list (Z * Z) :=
  let nd := Z.of_nat (List.length (digits_of x)) in
  flat_map (fun n => let p := 10 ^ (n - k) in [(x / p, n); (x / p + 1, n)])
           [nd; nd + 1].

Definition sci_valid (x k : Z) (c : Z * Z) : bool :=
  let (s, n) := c in
  (10 ^ (k - 1) <=? s) && (s <? 10 ^ k)
  && number_eqb (to_double (s * 10 ^ (n - k))) (Int x).

Definition sci_better (x k : Z) (c d : Z * Z) : Z * Z :=
  let dist (e : Z * Z) := Z.abs (fst e * 10 ^ (snd e - k) - x) in
  if dist d <? dist c then d
  else if (dist d =? dist c) && Z.even (fst d) then d else c.

Fixpoint sci_search (x : Z) (ks : list Z) : option (Z * (Z * Z)) :=
  match ks with
  | [] => None
  | k :: ks' =>
      match filter (sci_valid x k) (sci_candidates x k) with
      | [] => sci_search x ks'
      | c :: cs => Some (k, fold_left (sci_better x k) cs c)
      end
  end.

Definition sci_string (x : Z) : string :=
  match sci_search x (map Z.of_nat (seq 1 17)) with
  | Some (k, (s, n)) =>
      let e := string_of_digits (digits_of (n - 1)) in
      match digits_of s with
      | d :: ds =>
          String (digit_char d)
            ((match ds with
              | [] => ""
              | _ => String "." (string_of_digits ds)
              end) ++ "e+" ++ e)
      | [] => ""
      end
  | None => string_of_digits (digits_of x)
  end.

(** [Number::toString(x)], radix 10. *)
Definition number_toString (x : number) : string :=
  match x with
  | NaN => "NaN"
  | Inf false => "Infinity"
  | Inf true => "-Infinity"
  | Int z =>
      let a := Z.abs z in
      let body := if a <? 10 ^ 21 then string_of_digits (digits_of a)
                  else sci_string a in
      if z <? 0 then String "-" body else body
  end.

(** ** Values

    The values that reach the component's fields: [null], [undefined],
    Numbers and strings. *)

Inductive value : Type :=
| Null : value
| Undefined : value
| Num (n : number) : value
| Str (s : string) : value.

(** [ToString(v)]. *)
Definition ToString (v : value) : string :=
  match v with
  | Null => "null"
  | Undefined => "undefined"
  | Num n => number_toString n
  | Str s => s
  end.

(** [ToBoolean(v)], as in [v && ...], [!v] and [v ? a : b]. *)
Definition truthy (v : value) : bool :=
  match v with
  | Null | Undefined => false
  | Num NaN => false
  | Num (Int z) => negb (z =? 0)
  | Num (Inf _) => true
  | Str s => negb (String.eqb s "")
  end.

(** [typeof v === 'number'] *)
Definition is_number (v : value) : bool :=
  match v with Num _ => true | _ => false end.

(** ** Dates

    A Date object is its time value: milliseconds since the epoch, or
    [None] for the invalid date, whose time value is [NaN].  The
    algorithms are those of ECMA-262, "Date Objects". *)

Record Date : Type := mkDate { time_value : option Z }.

Definition msPerDay : Z := 86400000.

Definition Day (t : Z) : Z := t / msPerDay.

Definition DayFromYear (y : Z) : Z :=
  365 * (y - 1970) + (y - 1969) / 4 - (y - 1901) / 100 + (y - 1601) / 400.

Definition leap_year (y : Z) : bool :=
  ((y mod 4 =? 0) && negb (y mod 100 =? 0)) || (y mod 400 =? 0).

Definition DaysInYear (y : Z) : Z := if leap_year y then 366 else 365.

(** The year containing day number [d]: the largest [y] with
    [DayFromYear y <= d].  A 400-year cycle has 146097 days, so the
    estimate is off by one at most. *)
Definition YearFromDay (d : Z) : Z :=
  let y0 := 1970 + (400 * d) / 146097 in
  if d <? DayFromYear y0 then y0 - 1
  else if DayFromYear (y0 + 1) <=? d then y0 + 1
  else y0.

Definition YearFromTime (t : Z) : Z := YearFromDay (Day t).

Definition InLeapYear (t : Z) : Z :=
  if leap_year (YearFromTime t) then 1 else 0.

Definition DayWithinYear (t : Z) : Z := Day t - DayFromYear (YearFromTime t).

(** Day within the year on which month [m] (0 to 11) starts; [l] is 1 in
    a leap year. *)
Definition month_start (l m : Z) : Z :=
  match m with
  | 0 => 0
  | 1 => 31
  | 2 => 59 + l
  | 3 => 90 + l
  | 4 => 120 + l
  | 5 => 151 + l
  | 6 => 181 + l
  | 7 => 212 + l
  | 8 => 243 + l
  | 9 => 273 + l
  | 10 => 304 + l
  | _ => 334 + l
  end.

Definition month_of_day (l d : Z) : Z :=
  if d <? 31 then 0
  else if d <? 59 + l then 1
  else if d <? 90 + l then 2
  else if d <? 120 + l then 3
  else if d <? 151 + l then 4
  else if d <? 181 + l then 5
  else if d <? 212 + l then 6
  else if d <? 243 + l then 7
  else if d <? 273 + l then 8
  else if d <? 304 + l then 9
  else if d <? 334 + l then 10
  else 11.

Definition MonthFromTime (t : Z) : Z :=
  month_of_day (InLeapYear t) (DayWithinYear t).

Definition DateFromTime (t : Z) : Z :=
  DayWithinYear t + 1 - month_start (InLeapYear t) (MonthFromTime t).

(** [MakeDay(year, month, date)]: the day number of the given calendar
    day; months outside 0..11 carry into the year, and [date] counts on
    from the first of the month whatever its size. *)
Definition MakeDay (year month date : number) : option Z :=
  match year, month, date with
  | Int y, Int m, Int dt =>
      let ym := y + m / 12 in
      let mn := m mod 12 in
      Some (DayFromYear ym + month_start (if leap_year ym then 1 else 0) mn
            + dt - 1)
  | _, _, _ => None
  end.

Definition MakeDate (day : option Z) (time : Z) : option Z :=
  match day with
  | Some d => Some (d * msPerDay + time)
  | None => None
  end.

Definition TimeClip (t : option Z) : option Z :=
  match t with
  | Some v => if 8640000000000000 <? Z.abs v then None else Some v
  | None => None
  end.

(** [Date.UTC(year, month, date)]: a year from 0 to 99 means 1900 to
    1999. *)
Definition Date_UTC (year month date : number) : option Z :=
  let yr := match year with
            | Int y => if (0 <=? y) && (y <=? 99) then Int (1900 + y) else year
            | _ => year
            end in
  TimeClip (MakeDate (MakeDay yr month date) 0).

(** [new Date(value)] for a time value. *)
Definition new_Date (value : option Z) : Date := mkDate (TimeClip value).

Definition of_time (f : Z -> Z) (d : Date) : number :=
  match time_value d with
  | Some t => Int (f t)
  | None => NaN
  end.

Definition getUTCFullYear : Date -> number := of_time YearFromTime.
Definition getUTCMonth : Date -> number := of_time MonthFromTime.
Definition getUTCDate : Date -> number := of_time DateFromTime.

(** ** lodash [range(start, end, step)] on integers: [start], [start +
    step], ... up to but not including [end]; [step] defaults to 1 or -1
    after the direction. *)
Definition range_length (start stop step : Z) : nat :=
  let s := if step =? 0 then 1 else step in
  (* ceil ((stop - start) / s), not below zero *)
  Z.to_nat (Z.max (- ((start - stop) / s)) 0).

Definition range3 (start stop step : Z) : list Z :=
  map (fun i => start + Z.of_nat i * step)
      (seq 0 (range_length start stop step)).

Definition range (start stop : Z) : list Z :=
  range3 start stop (if start <? stop then 1 else -1).

End JS.

(* ================================================================== *)
(** * The date helpers of the module *)
(* ================================================================== *)

Module Composer.
Import JS.

(** [pad]: one leading zero for the numbers from 0 to 9. *)
Definition pad (num : number) : string :=
  if geb num (Int 0) && ltb num (Int 10)
  then "0" ++ number_toString num
  else number_toString num.

(** [parseNum]: [parseInt(str, 10)], with [null] (here [None]) for
    [NaN]. *)
Definition parseNum (str : value) : option number :=
  let num := parseInt (ToString str) in
  if isNaN num then None else Some num.

(** The three selected values; each is [null] or what [parseNum] or a
    Date getter returned, or what the caller put there. *)
Record Selection : Type :=
  mkSelection { day : value; month : value; year : value }.

Definition isValidDate (date : Date) (year month day : number) : bool :=
  let yearsMatch := strict_eq (getUTCFullYear date) year in
  let monthsMatch := strict_eq (add (getUTCMonth date) (Int 1)) month in
  let daysMatch := strict_eq (getUTCDate date) day in
  yearsMatch && monthsMatch && daysMatch.

(** [dateFromSelected]: the UTC date of the selected values, [None]
    (the source's [null]) when a value is missing or the date is not the
    one selected. *)
Definition dateFromSelected (sel : Selection) : option Date :=
  match parseNum (day sel), parseNum (month sel), parseNum (year sel) with
  | Some dayNum, Some monthNum, Some yearNum =>
      let d := new_Date (Date_UTC yearNum (sub monthNum (Int 1)) dayNum) in
      if isValidDate d yearNum monthNum dayNum then Some d else None
  | _, _, _ => None
  end.

Definition selectedFromDate (date : Date) : Selection :=
  {| day := Num (getUTCDate date);
     month := Num (add (getUTCMonth date) (Int 1));
     year := Num (getUTCFullYear date) |}.

(** Always 31 days per month. *)
Definition days : list Z := range 1 32.
Definition months : list Z := range 1 13.

Definition yearsToShow : Z := 80.

(** [currentYear] is [new Date().getFullYear()] when the module loads. *)
Definition years (currentYear : Z) : list Z :=
  range3 currentYear (currentYear - yearsToShow) (-1).

End Composer.

(* ================================================================== *)
(** * The [BirthdayInput] class *)
(* ================================================================== *)

Module Widget.
Import JS Composer.

Definition BLUR_TIMEOUT : Z := 100.

(** A Date object held in a prop has an identity, which is what [!==]
    compares. *)
Record DateObject : Type := mkDateObject { ref : nat; date : Date }.

(** The props the class reads: [id] and [value], which is a Date object
    or [None] for [null]; [onChange], [onFocus] and [onBlur] are the
    owner's functions, and a call to one of them is an entry of the call
    log. *)
Record Props : Type := mkProps { id : value; value : option DateObject }.

Inductive call : Type :=
| onChange (v : option Date)
| onFocus
| onBlur.

(** [oldValue !== newValue] *)
Definition strict_neq (a b : option DateObject) : bool :=
  match a, b with
  | None, None => false
  | Some x, Some y => negb (Nat.eqb (ref x) (ref y))
  | _, _ => true
  end.

(** [v instanceof Date] *)
Definition instanceof_Date (v : option DateObject) : bool :=
  match v with Some _ => true | None => false end.

(** The [type] argument of [handleSelectChange]. *)
Inductive type : Type := type_day | type_month | type_year.

(** [{ ...selected, [type]: v }] *)
Definition with_field (selected : Selection) (t : type) (v : JS.value)
  : Selection :=
  match t with
  | type_day => {| day := v; month := month selected; year := year selected |}
  | type_month => {| day := day selected; month := v; year := year selected |}
  | type_year => {| day := day selected; month := month selected; year := v |}
  end.

Definition nullable (n : option number) : JS.value :=
  match n with Some x => Num x | None => Null end.

(** ** The window's timers

    A live timer has an id, the time at which it is due, and the function
    to run; the only function this class ever schedules calls
    [this.props.onBlur()]. *)
Inductive timer_function : Type := call_props_onBlur.

Record timer : Type :=
  mkTimer { timer_id : nat; due : Z; run : timer_function }.

Record Window : Type :=
  mkWindow { now : Z; timers : list timer; next_id : nat }.

(** [window.clearTimeout(id)]: nothing happens for [null] or for an id
    with no live timer. *)
Definition clearTimeout (w : Window) (i : option nat) : Window :=
  match i with
  | None => w
  | Some n =>
      {| now := now w;
         timers := filter (fun t => negb (Nat.eqb (timer_id t) n)) (timers w);
         next_id := next_id w |}
  end.

(** [window.setTimeout(f, delay)]: a fresh id. *)
Definition setTimeout (w : Window) (f : timer_function) (delay : Z)
  : Window * nat :=
  let i := next_id w in
  ({| now := now w;
      timers := timers w ++ [mkTimer i (now w + delay) f];
      next_id := S i |}, i).

(** ** The instance and its environment *)

Record State : Type := mkState { selected : Selection }.

Record Instance : Type :=
  mkInstance { props : Props; state : State; blurTimeoutId : option nat }.

Record World : Type :=
  mkWorld { this : Instance; window : Window; calls : list call }.

Definition setState (i : Instance) (st : State) : Instance :=
  {| props := props i; state := st; blurTimeoutId := blurTimeoutId i |}.

Definition constructor (p : Props) : Instance :=
  {| props := p;
     state := {| selected := {| day := Null; month := Null; year := Null |} |};
     blurTimeoutId := None |}.

Definition componentWillMount (i : Instance) : Instance :=
  match value (props i) with
  | Some v => setState i {| selected := selectedFromDate (date v) |}
  | None => i
  end.

Definition componentWillReceiveProps (i : Instance) (newProps : Props)
  : Instance :=
  let oldValue := value (props i) in
  let newValue := value newProps in
  let valueChanged := strict_neq oldValue newValue in
  if valueChanged && instanceof_Date newValue
  then match newValue with
       | Some v => setState i {| selected := selectedFromDate (date v) |}
       | None => i
       end
  else i.

Definition componentWillUnmount (w : World) : World :=
  {| this := this w;
     window := clearTimeout (window w) (blurTimeoutId (this w));
     calls := calls w |}.

Definition handleSelectFocus (w : World) : World :=
  {| this := this w;
     window := clearTimeout (window w) (blurTimeoutId (this w));
     calls := calls w ++ [onFocus] |}.

Definition handleSelectBlur (w : World) : World :=
  let w1 := clearTimeout (window w) (blurTimeoutId (this w)) in
  let (w2, i) := setTimeout w1 call_props_onBlur BLUR_TIMEOUT in
  {| this := {| props := props (this w);
                state := state (this w);
                blurTimeoutId := Some i |};
     window := w2;
     calls := calls w |}.

Definition handleSelectChange (w : World) (t : type) (v : JS.value) : World :=
  let prevState := state (this w) in
  let selected' := with_field (selected prevState) t (nullable (parseNum v)) in
  {| this := setState (this w) {| selected := selected' |};
     window := window w;
     calls := calls w ++ [onChange (dateFromSelected selected')] |}.

(** ** What [render] draws

    The three [Select]s; each starts with an empty [<option />], then
    has one option per value of its list. *)
Inductive option_element : Type :=
| empty_option
| option_of (key value : Z) (text : string).

Record Select : Type :=
  mkSelect { select_id : option JS.value;     (* only the first has an id *)
             select_value : JS.value;
             select_type : type;              (* what its [onChange] passes *)
             options : list option_element }.

Definition selectedValue (n : JS.value) : JS.value :=
  if is_number n then n else Str "".

Definition render (currentYear : Z) (i : Instance) : list Select :=
  [ {| select_id := Some (id (props i));
       select_value := selectedValue (day (selected (state i)));
       select_type := type_day;
       options := empty_option
                  :: map (fun d => option_of d d (pad (Int d))) days |};
    {| select_id := None;
       select_value := selectedValue (month (selected (state i)));
       select_type := type_month;
       options := empty_option
                  :: map (fun m => option_of m m (pad (Int m))) months |};
    {| select_id := None;
       select_value := selectedValue (year (selected (state i)));
       select_type := type_year;
       options := empty_option
                  :: map (fun y => option_of y y (number_toString (Int y)))
                         (years currentYear) |} ].

(** ** What happens to a mounted instance *)

(** The three [Select] controls that [render] draws. *)
Inductive control : Type := day_select | month_select | year_select.

(** The [type] that the control's [onChange] passes on. *)
Definition type_of (c : control) : type :=
  match c with
  | day_select => type_day
  | month_select => type_month
  | year_select => type_year
  end.

Inductive event : Type :=
| Focus (c : control)                  (* the control's [onFocus] *)
| Blur (c : control)                   (* the control's [onBlur] *)
| Change (c : control) (raw : string)  (* [onChange], [e.target.value] *)
| ReceiveProps (newProps : Props)      (* the owner renders again *)
| Elapse (ms : Z)                      (* time passes *)
| Unmount.

(** Running a timer's function. *)
Definition run_timer (cs : list call) (t : timer) : list call :=
  match run t with
  | call_props_onBlur => cs ++ [onBlur]
  end.

(** As time passes, the timers that are due run in the order they were
    set and are gone. *)
Definition elapse (w : World) (ms : Z) : World :=
  let t' := now (window w) + Z.max 0 ms in
  let is_due (t : timer) := due t <=? t' in
  {| this := this w;
     window := {| now := t';
                  timers := filter (fun t => negb (is_due t))
                                   (timers (window w));
                  next_id := next_id (window w) |};
     calls := fold_left run_timer (filter is_due (timers (window w)))
                        (calls w) |}.

(** React hands the new props to [componentWillReceiveProps] and then
    makes them [this.props]. *)
Definition receiveProps (w : World) (newProps : Props) : World :=
  let i := componentWillReceiveProps (this w) newProps in
  {| this := {| props := newProps;
                state := state i;
                blurTimeoutId := blurTimeoutId i |};
     window := window w;
     calls := calls w |}.

Definition step (w : World) (e : event) : World :=
  match e with
  | Focus _ => handleSelectFocus w
  | Blur _ => handleSelectBlur w
  | Change c raw => handleSelectChange w (type_of c) (Str raw)
  | ReceiveProps p => receiveProps w p
  | Elapse ms => elapse w ms
  | Unmount => componentWillUnmount w
  end.

Definition run_events (w : World) (es : list event) : World :=
  fold_left step es w.

(** A fresh instance in a window with no timer of its own. *)
Definition mount (p : Props) (clock : Z) (first_id : nat) : World :=
  {| this := componentWillMount (constructor p);
     window := {| now := clock; timers := []; next_id := first_id |};
     calls := [] |}.

(** The worlds a mounted instance can be in. *)
Inductive reachable : World -> Prop :=
| reachable_mount p clock first_id : reachable (mount p clock first_id)
| reachable_step w e : reachable w -> e <> Unmount -> reachable (step w e).

(** How many times [onBlur] was called. *)
Definition blur_calls (cs : list call) : nat :=
  List.length (filter (fun c => match c with onBlur => true | _ => false end) cs).

End Widget.

(* ================================================================== *)
(** * The field wrapper *)
(* ================================================================== *)

Module Field.
Import JS.

Section Wrapper.

(** The class names of the style sheet and the [input] and [meta]
    objects that redux-form passes are opaque here. *)
Variable css_fieldRoot : string.
Variables Input Meta : Type.

Record FieldProps : Type :=
  mkFieldProps {
    rootClassName : value;
    className : value;
    id : value;
    label : value;
    input : Input;
    meta : Meta }.

(** What the function component returns: the [div] with its three
    children. *)
Inductive child : Type :=
| label_for (htmlFor : value) (text : value)
| BirthdayInput (id : value) (rest : Input)   (* [{ id, ...input }] *)
| ValidationError (fieldMeta : Meta)
| nothing.                                     (* [null] *)

Record element : Type :=
  div { classes : string; first : child; second : child; third : child }.

Inductive outcome : Type :=
| Throws (message : string)
| Returns (e : element).

(** [classNames(a, b)]: the truthy arguments, separated by a space. *)
Definition classNames (a b : value) : string :=
  match truthy a, truthy b with
  | true, true => ToString a ++ " " ++ ToString b
  | true, false => ToString a
  | false, true => ToString b
  | false, false => ""
  end.

Definition BirthdayInputFieldComponent (p : FieldProps) : outcome :=
  if truthy (label p) && negb (truthy (id p))
  then Throws "id required when a label is given"
  else
    let classes :=
      classNames (if truthy (rootClassName p) then rootClassName p
                  else Str css_fieldRoot)
                 (className p) in
    Returns
      (div classes
         (if truthy (label p) then label_for (id p) (label p) else nothing)
         (BirthdayInput (id p) (input p))
         (ValidationError (meta p))).

End Wrapper.

End Field.

(* ================================================================== *)
(** * Notions used in the statements *)
(* ================================================================== *)

Module Notions.
Import JS Composer.

(** A decimal digit. *)
Definition is_digit_value (d : Z) : Prop := 0 <= d <= 9.

(** A string that [parseInt] reads no digit from. *)
Definition no_leading_digit (s : string) : Prop := leading_digits s = [].

(** The time values of valid dates span 100,000,000 days either side of
    the epoch. *)
Definition in_time_range (t : Z) : Prop := Z.abs t <= 8640000000000000.

(** Number of days of month [m] (0 to 11); [l] is 1 in a leap year. *)
Definition month_length (l m : Z) : Z :=
  match m with
  | 1 => 28 + l
  | 3 | 5 | 8 | 10 => 30
  | _ => 31
  end.

(** The date that [dateFromSelected] builds from three numbers. *)
Definition built (yearNum monthNum dayNum : number) : Date :=
  new_Date (Date_UTC yearNum (sub monthNum (Int 1)) dayNum).

(** Number of days of month [m] (1 to 12) of year [y]. *)
Definition days_in_month (y m : Z) : Z :=
  month_length (if leap_year y then 1 else 0) (m - 1).

(** Day number of the calendar day [d]/[m]/[y]. *)
Definition civil_day (y m d : Z) : Z :=
  DayFromYear y + month_start (if leap_year y then 1 else 0) (m - 1) + d - 1.

(** A day of the calendar that a Date can hold and that [Date.UTC]
    does not move to the twentieth century. *)
Definition calendar_date (y m d : Z) : Prop :=
  1 <= m <= 12 /\ 1 <= d <= days_in_month y m /\ ~ (0 <= y <= 99)
  /\ in_time_range (civil_day y m d * msPerDay).

(** The integer that a string states after white space and a sign, if
    it states one: the digits [parseInt] reads. *)
Definition stated_digits (s : string) : list Z :=
  leading_digits (snd (split_sign (trim_left s))).

(** The selection whose three fields hold the numbers [d], [m], [y]. *)
Definition numbers (d m y : Z) : Selection :=
  {| day := Num (Int d); month := Num (Int m); year := Num (Int y) |}.

End Notions.

Module WidgetNotions.
Import Widget.

(** A blur notification is pending: a timer of the instance is live. *)
Definition blur_pending (w : World) : Prop := timers (window w) <> [].

(** The instance has at most the timer whose id it holds. *)
Definition holds_its_timer (w : World) : Prop :=
  forall t, In t (timers (window w)) ->
            blurTimeoutId (this w) = Some (timer_id t).

(** [selected[type]] *)
Definition field (t : type) (s : Composer.Selection) : JS.value :=
  match t with
  | type_day => Composer.day s
  | type_month => Composer.month s
  | type_year => Composer.year s
  end.

(** A wait, in several stretches. *)
Definition waiting (stretches : list Z) : list event := map Elapse stretches.

(** The text and value of the options of a [Select], empty one aside. *)
Definition option_values (s : Select) : list Z :=
  flat_map (fun o => match o with
                     | empty_option => []
                     | option_of _ v _ => [v]
                     end) (options s).

Definition option_texts (s : Select) : list string :=
  flat_map (fun o => match o with
                     | empty_option => []
                     | option_of _ _ t => [t]
                     end) (options s).

End WidgetNotions.

Module MoreNotions.
Import JS Composer Widget.

(** What a field of the state can hold: [null] or a Number. *)
Definition null_or_number (v : JS.value) : Prop :=
  v = Null \/ exists n, v = Num n.

Definition holds_numbers (s : Selection) : Prop :=
  null_or_number (day s) /\ null_or_number (month s)
  /\ null_or_number (year s).

(** What a [Select] may be given as its value: a Number or [''] . *)
Definition number_or_empty (v : JS.value) : Prop :=
  v = Str "" \/ exists n, v = Num n.

(** How many of the events are blurs. *)
Definition blur_events (es : list event) : nat :=
  List.length (filter (fun e => match e with Blur _ => true | _ => false end)
                      es).

(** [e.target.value] when the option of value [v] is chosen: the
    option's value as a string. *)
Definition target_value (v : Z) : string := number_toString (Int v).

(** A Date at midnight UTC of a day of the calendar outside the years
    0 to 99. *)
Definition midnight_date (r : Date) : Prop :=
  exists t, time_value r = Some t
            /\ Z.abs t <= 8640000000000000
            /\ t mod msPerDay = 0
            /\ ~ (0 <= YearFromTime t <= 99).

(** A call that hands over no date, or a date at midnight. *)
Definition hands_midnight (c : call) : Prop :=
  match c with
  | onChange (Some r) => midnight_date r
  | _ => True
  end.

(** The last entry of the call log. *)
Definition last_call (w : World) : option call :=
  last (map Some (calls w)) None.

End MoreNotions.

(* ================================================================== *)
(** * Facts about the host language *)
(* ================================================================== *)

Module JSFacts.
Import JS Notions.

(** ** Decimal digits *)

Ltac each_digit d :=
  let H := fresh in
  assert (H : d = 0 \/ d = 1 \/ d = 2 \/ d = 3 \/ d = 4 \/ d = 5 \/ d = 6
              \/ d = 7 \/ d = 8 \/ d = 9) by (unfold is_digit_value in *; lia);
  repeat (destruct H as [-> | H]); try subst d.

Lemma digit_char_is_digit d :
  is_digit_value d -> is_digit (digit_char d) = true.
Proof. intros Hd. each_digit d; reflexivity. Qed.

Lemma digit_char_value d :
  is_digit_value d -> digit_value (digit_char d) = d.
Proof. intros Hd. each_digit d; reflexivity. Qed.

Lemma digit_char_not_white d :
  is_digit_value d -> is_white (digit_char d) = false.
Proof. intros Hd. each_digit d; reflexivity. Qed.

Lemma split_sign_digit d r :
  is_digit_value d ->
  split_sign (String (digit_char d) r) = (false, String (digit_char d) r).
Proof. intros Hd. each_digit d; reflexivity. Qed.

Lemma digits_value_snoc ds d :
  digits_value (ds ++ [d]) = 10 * digits_value ds + d.
Proof. unfold digits_value. now rewrite fold_left_app. Qed.

Lemma digits_fuel_spec f :
  forall n, 0 <= n < 2 ^ Z.of_nat (S f) ->
    digits_value (digits_fuel (S f) n) = n
    /\ Forall is_digit_value (digits_fuel (S f) n)
    /\ digits_fuel (S f) n <> [].
Proof.
  induction f as [|f IH]; intros n Hn.
  - assert (n < 10) by (change (2 ^ Z.of_nat 1) with 2 in Hn; lia).
    cbn [digits_fuel]. destruct (Z.ltb_spec n 10); [|lia].
    split; [unfold digits_value; cbn; lia | split; [|discriminate]].
    constructor; [unfold is_digit_value; lia | constructor].
  - remember (S f) as g. cbn [digits_fuel].
    destruct (Z.ltb_spec n 10) as [Hlt|Hge].
    + split; [unfold digits_value; cbn; lia | split; [|discriminate]].
      constructor; [unfold is_digit_value; lia | constructor].
    + assert (Hq : 0 <= n / 10 < 2 ^ Z.of_nat g).
      { split; [apply Z.div_pos; lia|].
        rewrite Nat2Z.inj_succ, Z.pow_succ_r in Hn by lia.
        assert (0 < 2 ^ Z.of_nat g) by (apply Z.pow_pos_nonneg; lia).
        apply Z.div_lt_upper_bound; lia. }
      subst g. destruct (IH _ Hq) as (Hv & Hd & Hne).
      split; [|split].
      * rewrite digits_value_snoc, Hv.
        pose proof (Z.div_mod n 10). lia.
      * apply Forall_app. split; [exact Hd|].
        constructor; [|constructor].
        unfold is_digit_value. pose proof (Z.mod_pos_bound n 10). lia.
      * intros E. apply app_eq_nil in E. destruct E as [_ E]. discriminate.
Qed.

Lemma digits_of_spec n :
  0 <= n ->
  digits_value (digits_of n) = n
  /\ Forall is_digit_value (digits_of n)
  /\ digits_of n <> [].
Proof.
  intros Hn. unfold digits_of. apply digits_fuel_spec.
  split; [exact Hn|].
  rewrite Nat2Z.inj_succ, Z2Nat.id by apply Z.log2_nonneg.
  destruct (Z.eq_dec n 0) as [->|Hz]; [reflexivity|].
  apply Z.log2_spec. lia.
Qed.

(** ** Reading back what was printed *)

Lemma leading_digits_printed ds rest :
  Forall is_digit_value ds ->
  leading_digits (string_of_digits ds ++ rest) = (ds ++ leading_digits rest)%list.
Proof.
  induction 1 as [|d ds Hd _ IH]; [reflexivity|].
  cbn [string_of_digits fold_right String.append leading_digits app].
  rewrite (digit_char_is_digit d Hd), (digit_char_value d Hd).
  f_equal. exact IH.
Qed.

Lemma parseInt_digits ds rest :
  Forall is_digit_value ds -> ds <> [] -> no_leading_digit rest ->
  parseInt (string_of_digits ds ++ rest) = to_double (digits_value ds).
Proof.
  intros Hds Hne Hrest.
  destruct ds as [|d ds]; [congruence|].
  pose proof (leading_digits_printed (d :: ds) rest Hds) as L.
  rewrite Hrest, app_nil_r in L.
  inversion Hds as [|? ? Hd Hds']; subst.
  unfold parseInt. revert L.
  cbn [string_of_digits fold_right String.append trim_left].
  rewrite (digit_char_not_white d Hd), (split_sign_digit d _ Hd).
  intros ->. reflexivity.
Qed.

Lemma parseInt_minus_digits ds rest :
  Forall is_digit_value ds -> ds <> [] -> no_leading_digit rest ->
  parseInt (String "-" (string_of_digits ds ++ rest))
  = to_double (- digits_value ds).
Proof.
  intros Hds Hne Hrest.
  pose proof (leading_digits_printed ds rest Hds) as L.
  rewrite Hrest, app_nil_r in L.
  unfold parseInt. cbn [trim_left]. change (is_white "-") with false.
  cbn [split_sign]. rewrite L.
  destruct ds; [congruence|reflexivity].
Qed.

Lemma append_empty_r (s : string) : s ++ "" = s.
Proof. induction s as [|c s IH]; [reflexivity|]. cbn. now rewrite IH. Qed.

Lemma to_double_exact z : Z.abs z < 2 ^ 53 -> to_double z = Int z.
Proof.
  intros H. unfold to_double.
  destruct (Z.ltb_spec (Z.abs z) (2 ^ 53)); [reflexivity|lia].
Qed.

(** Printing an exactly representable integer and reading it again
    gives the integer back. *)
Lemma parseInt_number_toString z :
  Z.abs z < 2 ^ 53 -> parseInt (number_toString (Int z)) = Int z.
Proof.
  intros Hz. unfold number_toString.
  assert (Hlt : Z.abs z < 10 ^ 21) by (eapply Z.lt_trans; [exact Hz|reflexivity]).
  destruct (Z.ltb_spec (Z.abs z) (10 ^ 21)); [|lia].
  destruct (digits_of_spec (Z.abs z) (Z.abs_nonneg z)) as (Hv & Hd & Hne).
  rewrite <- (to_double_exact z Hz).
  destruct (Z.ltb_spec z 0).
  - rewrite <- (append_empty_r (string_of_digits _)).
    rewrite parseInt_minus_digits by (auto; reflexivity).
    rewrite Hv. f_equal. lia.
  - rewrite <- (append_empty_r (string_of_digits _)).
    rewrite parseInt_digits by (auto; reflexivity).
    rewrite Hv. f_equal. lia.
Qed.

End JSFacts.

Module DateFacts.
Import JS Notions.

Ltac zlia := Z.div_mod_to_equations; lia.

Lemma leap_year_cases y :
  (leap_year y = true /\ DaysInYear y = 366)
  \/ (leap_year y = false /\ DaysInYear y = 365).
Proof. unfold DaysInYear. destruct (leap_year y); auto. Qed.

Lemma DayFromYear_succ y : DayFromYear (y + 1) = DayFromYear y + DaysInYear y.
Proof.
  unfold DayFromYear, DaysInYear, leap_year.
  destruct (Z.eqb_spec (y mod 4) 0); destruct (Z.eqb_spec (y mod 100) 0);
    destruct (Z.eqb_spec (y mod 400) 0); cbn [andb orb negb]; zlia.
Qed.

Lemma DayFromYear_lt y1 y2 : y1 < y2 -> DayFromYear y1 < DayFromYear y2.
Proof. unfold DayFromYear. intros H. zlia. Qed.

Lemma DayFromYear_le y1 y2 : y1 <= y2 -> DayFromYear y1 <= DayFromYear y2.
Proof. unfold DayFromYear. intros H. zlia. Qed.

(** [YearFromDay d] is the year whose days include [d] ... *)
Lemma YearFromDay_spec d :
  DayFromYear (YearFromDay d) <= d < DayFromYear (YearFromDay d + 1).
Proof.
  unfold YearFromDay.
  destruct (Z.ltb_spec d (DayFromYear (1970 + 400 * d / 146097))) as [E1|E1].
  - replace (1970 + 400 * d / 146097 - 1 + 1)
      with (1970 + 400 * d / 146097) by lia.
    split; [|lia]. revert E1. unfold DayFromYear. zlia.
  - destruct (Z.leb_spec (DayFromYear (1970 + 400 * d / 146097 + 1)) d)
      as [E2|E2].
    + split; [lia|]. revert E2. unfold DayFromYear. zlia.
    + lia.
Qed.

(** ... and the only such year: the largest [y] with
    [DayFromYear y <= d], as ECMA-262 defines [YearFromTime]. *)
Lemma YearFromDay_unique d y :
  DayFromYear y <= d < DayFromYear (y + 1) -> YearFromDay d = y.
Proof.
  intros Hy. pose proof (YearFromDay_spec d) as HY.
  destruct (Z.lt_trichotomy (YearFromDay d) y) as [Hlt | [Heq | Hgt]];
    [ | exact Heq | ].
  - pose proof (DayFromYear_le (YearFromDay d + 1) y ltac:(lia)). lia.
  - pose proof (DayFromYear_le (y + 1) (YearFromDay d) ltac:(lia)). lia.
Qed.

Lemma YearFromDay_largest d y :
  DayFromYear y <= d -> y <= YearFromDay d.
Proof.
  intros Hy. pose proof (YearFromDay_spec d) as HY.
  destruct (Z.le_gt_cases y (YearFromDay d)) as [H|H]; [exact H|].
  pose proof (DayFromYear_le (YearFromDay d + 1) y ltac:(lia)). lia.
Qed.

Lemma Day_of_days d : Day (d * msPerDay + 0) = d.
Proof. unfold Day, msPerDay. rewrite Z.add_0_r. now apply Z.div_mul. Qed.

Lemma TimeClip_Some t v : TimeClip t = Some v -> t = Some v /\ in_time_range v.
Proof.
  unfold TimeClip, in_time_range. destruct t as [u|]; [|discriminate].
  destruct (Z.ltb_spec 8640000000000000 (Z.abs u)); [discriminate|].
  intros [= ->]. split; [reflexivity|lia].
Qed.

Lemma TimeClip_in_range v : in_time_range v -> TimeClip (Some v) = Some v.
Proof.
  unfold TimeClip, in_time_range. intros H.
  destruct (Z.ltb_spec 8640000000000000 (Z.abs v)); [lia|reflexivity].
Qed.

Lemma Day_range t : in_time_range t -> -100000000 <= Day t <= 100000000.
Proof. unfold in_time_range, Day, msPerDay. intros H. zlia. Qed.

Lemma YearFromTime_range t :
  in_time_range t -> -271821 <= YearFromTime t <= 275760.
Proof.
  intros H. apply Day_range in H. unfold YearFromTime.
  pose proof (YearFromDay_spec (Day t)) as HY.
  split.
  - destruct (Z.le_gt_cases (-271821) (YearFromDay (Day t))) as [G|G];
      [exact G|].
    pose proof (DayFromYear_le (YearFromDay (Day t) + 1) (-271821)
                  ltac:(lia)) as L.
    change (DayFromYear (-271821)) with (-100000109) in L. lia.
  - destruct (Z.le_gt_cases (YearFromDay (Day t)) 275760) as [G|G];
      [exact G|].
    pose proof (DayFromYear_le 275761 (YearFromDay (Day t)) ltac:(lia)) as L.
    change (DayFromYear 275761) with 100000110 in L. lia.
Qed.

Lemma DayWithinYear_range t :
  0 <= DayWithinYear t < DaysInYear (YearFromTime t).
Proof.
  unfold DayWithinYear, YearFromTime.
  pose proof (YearFromDay_spec (Day t)) as HY.
  rewrite DayFromYear_succ in HY. lia.
Qed.

Lemma InLeapYear_eq t :
  InLeapYear t = DaysInYear (YearFromTime t) - 365.
Proof. unfold InLeapYear, DaysInYear. destruct (leap_year _); reflexivity. Qed.

Lemma month_of_day_range l d : 0 <= month_of_day l d <= 11.
Proof.
  unfold month_of_day.
  repeat match goal with
         | |- context [?a <? ?b] => destruct (Z.ltb_spec a b)
         end; lia.
Qed.

Lemma MonthFromTime_range t : 0 <= MonthFromTime t <= 11.
Proof. apply month_of_day_range. Qed.

Ltac each_month m :=
  let H := fresh in
  assert (H : m = 0 \/ m = 1 \/ m = 2 \/ m = 3 \/ m = 4 \/ m = 5 \/ m = 6
              \/ m = 7 \/ m = 8 \/ m = 9 \/ m = 10 \/ m = 11) by lia;
  repeat (destruct H as [-> | H]); try subst m.

Ltac split_month_of_day :=
  unfold month_of_day;
  repeat match goal with
         | |- context [?a <? ?b] => destruct (Z.ltb_spec a b)
         end.

(** A day within the year belongs to the month in which it falls ... *)
Lemma month_of_day_spec l d :
  0 <= l <= 1 -> 0 <= d < 365 + l ->
  let m := month_of_day l d in
  month_start l m <= d < month_start l m + month_length l m.
Proof.
  intros Hl Hd. split_month_of_day; cbn [month_start month_length]; lia.
Qed.

(** ... and a day counted from the start of a month, within the month,
    falls in that month. *)
Lemma month_of_day_start l m k :
  0 <= l <= 1 -> 0 <= m <= 11 -> 0 <= k < month_length l m ->
  month_of_day l (month_start l m + k) = m.
Proof.
  intros Hl Hm Hk. each_month m; cbn [month_start month_length] in Hk |- *;
    split_month_of_day; lia.
Qed.

Lemma month_start_range l m :
  0 <= l <= 1 -> 0 <= m <= 11 ->
  0 <= month_start l m /\ month_start l m + month_length l m <= 365 + l.
Proof. intros Hl Hm. each_month m; cbn [month_start month_length]; lia. Qed.

Lemma month_length_le l m : 0 <= l <= 1 -> 0 <= m <= 11 -> month_length l m <= 31.
Proof. intros Hl Hm. each_month m; cbn [month_length]; lia. Qed.

Lemma date_of_day_range l d :
  0 <= l <= 1 -> 0 <= d < 365 + l ->
  1 <= d + 1 - month_start l (month_of_day l d) <= 31.
Proof.
  intros Hl Hd.
  pose proof (month_of_day_spec l d Hl Hd) as M. cbv zeta in M.
  pose proof (month_length_le l _ Hl (month_of_day_range l d)). lia.
Qed.

Lemma InLeapYear_range t : 0 <= InLeapYear t <= 1.
Proof. unfold InLeapYear. destruct (leap_year _); lia. Qed.

Lemma DateFromTime_range t : 1 <= DateFromTime t <= 31.
Proof.
  unfold DateFromTime, MonthFromTime.
  apply date_of_day_range; [apply InLeapYear_range|].
  pose proof (DayWithinYear_range t). rewrite InLeapYear_eq. lia.
Qed.

End DateFacts.

(* ================================================================== *)
(** * The date helpers: composing and decomposing *)
(* ================================================================== *)

Module ComposerFacts.
Import JS Composer Notions JSFacts DateFacts.

Lemma strict_eq_eq a b : strict_eq a b = true -> a = b.
Proof.
  destruct a as [| s | x], b as [| t | y]; cbn; try discriminate.
  - intros H. apply Bool.eqb_prop in H. now subst.
  - intros H. apply Z.eqb_eq in H. now subst.
Qed.

Lemma strict_eq_refl a : a <> NaN -> strict_eq a a = true.
Proof.
  destruct a as [| s | x]; cbn; [congruence | | ]; intros _.
  - apply Bool.eqb_reflx.
  - apply Z.eqb_refl.
Qed.


Lemma parseNum_Some v n :
  parseNum v = Some n <-> parseInt (ToString v) = n /\ n <> NaN.
Proof.
  unfold parseNum. destruct (parseInt (ToString v)) as [| s | z]; cbn; split.
  - discriminate.
  - intros [<- H]. congruence.
  - intros [= <-]. split; [reflexivity|discriminate].
  - intros [<- _]. reflexivity.
  - intros [= <-]. split; [reflexivity|discriminate].
  - intros [<- _]. reflexivity.
Qed.

Lemma parseNum_None v : parseNum v = None <-> parseInt (ToString v) = NaN.
Proof.
  unfold parseNum. destruct (parseInt (ToString v)); cbn; split;
    congruence.
Qed.

Lemma parseNum_Int z : Z.abs z < 2 ^ 53 -> parseNum (Num (Int z)) = Some (Int z).
Proof.
  intros Hz. apply parseNum_Some. split; [|discriminate].
  cbn [ToString]. now apply parseInt_number_toString.
Qed.

Lemma isValidDate_spec date y m d :
  y <> NaN -> m <> NaN -> d <> NaN ->
  isValidDate date y m d = true
  <-> getUTCFullYear date = y
      /\ add (getUTCMonth date) (Int 1) = m
      /\ getUTCDate date = d.
Proof.
  intros Hy Hm Hd. unfold isValidDate. cbv zeta.
  rewrite !andb_true_iff. split.
  - intros [[A B] C]. auto using strict_eq_eq.
  - intros (<- & <- & <-). auto using strict_eq_refl.
Qed.

Lemma dateFromSelected_parsed sel dayNum monthNum yearNum :
  parseNum (day sel) = Some dayNum ->
  parseNum (month sel) = Some monthNum ->
  parseNum (year sel) = Some yearNum ->
  dateFromSelected sel
  = if isValidDate (built yearNum monthNum dayNum) yearNum monthNum dayNum
    then Some (built yearNum monthNum dayNum) else None.
Proof. intros Hd Hm Hy. unfold dateFromSelected. now rewrite Hd, Hm, Hy. Qed.

(** A date that [dateFromSelected] returns was built from the parsed
    values, and its UTC fields are those values. *)
Lemma dateFromSelected_Some sel r :
  dateFromSelected sel = Some r ->
  exists dayNum monthNum yearNum,
    parseNum (day sel) = Some dayNum
    /\ parseNum (month sel) = Some monthNum
    /\ parseNum (year sel) = Some yearNum
    /\ r = built yearNum monthNum dayNum
    /\ isValidDate r yearNum monthNum dayNum = true.
Proof.
  unfold dateFromSelected.
  destruct (parseNum (day sel)) as [dn|]; [|discriminate].
  destruct (parseNum (month sel)) as [mn|]; [|discriminate].
  destruct (parseNum (year sel)) as [yn|]; [|discriminate].
  fold (built yn mn dn).
  destruct (isValidDate (built yn mn dn) yn mn dn) eqn:V; [|discriminate].
  intros [= <-]. exists dn, mn, yn. auto.
Qed.

Lemma new_Date_time v t :
  time_value (new_Date v) = Some t -> v = Some t /\ in_time_range t.
Proof. unfold new_Date. cbn. apply TimeClip_Some. Qed.

(** The fields of a valid Date are small integers. *)
Lemma fields_exact r t :
  time_value r = Some t -> in_time_range t ->
  getUTCFullYear r = Int (YearFromTime t)
  /\ add (getUTCMonth r) (Int 1) = Int (MonthFromTime t + 1)
  /\ getUTCDate r = Int (DateFromTime t)
  /\ Z.abs (YearFromTime t) < 2 ^ 53
  /\ Z.abs (MonthFromTime t + 1) < 2 ^ 53
  /\ Z.abs (DateFromTime t) < 2 ^ 53.
Proof.
  intros Ht Hr.
  pose proof (YearFromTime_range t Hr).
  pose proof (MonthFromTime_range t).
  pose proof (DateFromTime_range t).
  assert (B : 275760 < 2 ^ 53) by reflexivity.
  assert (Hm : Z.abs (MonthFromTime t + 1) < 2 ^ 53) by lia.
  unfold getUTCFullYear, getUTCMonth, getUTCDate, of_time. rewrite Ht.
  cbn [add]. rewrite (to_double_exact _ Hm).
  repeat split; lia.
Qed.

(** Decomposing a composed date and composing again gives the date
    back, whatever the selection was. *)
Lemma compose_decompose_compose sel r :
  dateFromSelected sel = Some r ->
  dateFromSelected (selectedFromDate r) = Some r.
Proof.
  intros H.
  destruct (dateFromSelected_Some sel r H)
    as (dn & mn & yn & Hd & Hm & Hy & Hr & V).
  apply parseNum_Some in Hd, Hm, Hy.
  destruct Hd as [_ Hd], Hm as [_ Hm], Hy as [_ Hy].
  pose proof V as V'. apply isValidDate_spec in V'; auto.
  destruct V' as (Ey & Em & Ed).
  destruct (time_value r) as [t|] eqn:Ht.
  2:{ unfold getUTCFullYear, of_time in Ey. rewrite Ht in Ey. congruence. }
  assert (Hrange : in_time_range t).
  { rewrite Hr in Ht. unfold built in Ht. now apply new_Date_time in Ht. }
  destruct (fields_exact r t Ht Hrange) as (Fy & Fm & Fd & By & Bm & Bd).
  unfold selectedFromDate.
  rewrite (dateFromSelected_parsed _ dn mn yn); cbn [day month year].
  - rewrite <- Hr, V. reflexivity.
  - rewrite Fd in *. subst dn. now apply parseNum_Int.
  - rewrite Fm in *. subst mn. now apply parseNum_Int.
  - rewrite Fy in *. subst yn. now apply parseNum_Int.
Qed.

(** ** Which selections compose to a date *)

Lemma leap_flag_range y : 0 <= (if leap_year y then 1 else 0) <= 1.
Proof. destruct (leap_year y); lia. Qed.

Lemma Date_UTC_month_in_year yr m d :
  1 <= m <= 12 ->
  MakeDate (MakeDay (Int yr) (Int (m - 1)) (Int d)) 0
  = Some (civil_day yr m d * msPerDay + 0).
Proof.
  intros Hm. unfold MakeDay, MakeDate, civil_day.
  replace ((m - 1) / 12) with 0 by zlia.
  replace ((m - 1) mod 12) with (m - 1) by zlia.
  now rewrite !Z.add_0_r.
Qed.

(** The fields read back from the time of a calendar day. *)
Lemma fields_of_civil_day y m d :
  1 <= m <= 12 -> 1 <= d <= days_in_month y m ->
  let t := civil_day y m d * msPerDay + 0 in
  YearFromTime t = y /\ MonthFromTime t = m - 1 /\ DateFromTime t = d.
Proof.
  intros Hm Hd t. unfold days_in_month in Hd.
  pose proof (leap_flag_range y) as Hl.
  pose proof (month_start_range _ (m - 1) Hl ltac:(lia)) as [S0 S1].
  assert (HY : YearFromTime t = y).
  { unfold YearFromTime, t. rewrite Day_of_days.
    apply YearFromDay_unique. rewrite DayFromYear_succ.
    unfold civil_day, DaysInYear. destruct (leap_year y); lia. }
  assert (HL : InLeapYear t = if leap_year y then 1 else 0).
  { unfold InLeapYear. now rewrite HY. }
  assert (HW : DayWithinYear t
               = month_start (if leap_year y then 1 else 0) (m - 1) + (d - 1)).
  { unfold DayWithinYear. rewrite HY. unfold t. rewrite Day_of_days.
    unfold civil_day. lia. }
  assert (HM : MonthFromTime t = m - 1).
  { unfold MonthFromTime. rewrite HL, HW.
    apply month_of_day_start; lia. }
  repeat split; [exact HY | exact HM |].
  unfold DateFromTime. rewrite HM, HL, HW. lia.
Qed.

(** [dateFromSelected] keeps exactly the days of the calendar. *)
Lemma built_valid_iff_calendar y m d :
  isValidDate (built (Int y) (Int m) (Int d)) (Int y) (Int m) (Int d) = true
  <-> calendar_date y m d.
Proof.
  rewrite isValidDate_spec by discriminate. unfold calendar_date. split.
  - intros (Ey & Em & Ed).
    destruct (time_value (built (Int y) (Int m) (Int d))) as [t|] eqn:Ht.
    2:{ unfold getUTCFullYear, of_time in Ey. rewrite Ht in Ey. discriminate. }
    pose proof Ht as Hb. unfold built in Hb.
    apply new_Date_time in Hb. destruct Hb as [Hu Hr].
    destruct (fields_exact _ t Ht Hr) as (Fy & Fm & Fd & _).
    rewrite Fy in Ey. rewrite Fm in Em. rewrite Fd in Ed.
    injection Ey as Ey. injection Em as Em. injection Ed as Ed.
    pose proof (MonthFromTime_range t) as Rm.
    pose proof (DateFromTime_range t) as Rd.
    assert (Hm : 1 <= m <= 12) by lia.
    assert (Hs : sub (Int m) (Int 1) = Int (m - 1)).
    { cbn [sub add]. replace (m + - (1)) with (m - 1) by lia.
      apply to_double_exact. change (2 ^ 53) with 9007199254740992. lia. }
    rewrite Hs in Hu. unfold Date_UTC in Hu.
    apply TimeClip_Some in Hu. destruct Hu as [Hu _].
    set (yr := if (0 <=? y) && (y <=? 99) then Int (1900 + y) else Int y) in Hu.
    assert (Hyr : exists y', yr = Int y'
                  /\ (y' = y /\ ~ (0 <= y <= 99) \/ y' = 1900 + y /\ 0 <= y <= 99)).
    { unfold yr. destruct (Z.leb_spec 0 y); destruct (Z.leb_spec y 99);
        cbn [andb]; eexists; split; try reflexivity; lia. }
    destruct Hyr as (y' & -> & Hy').
    rewrite (Date_UTC_month_in_year y' m d Hm) in Hu. injection Hu as Hu.
    assert (Dt : Day t = civil_day y' m d) by (rewrite <- Hu; apply Day_of_days).
    pose proof (YearFromDay_spec (Day t)) as Ys. fold (YearFromTime t) in Ys.
    rewrite Ey, Dt in Ys.
    pose proof (leap_flag_range y') as Hl'.
    pose proof (month_start_range _ (m - 1) Hl' ltac:(lia)) as [S0 _].
    destruct Hy' as [[-> Hy'] | [-> Hy']].
    + (* the year was taken as it is *)
      split; [exact Hm|]. split; [|split; [exact Hy'|]].
      * pose proof (DayWithinYear_range t) as W.
        unfold DayWithinYear in W. rewrite Ey, Dt in W.
        assert (HW : DayWithinYear t
                     = month_start (if leap_year y then 1 else 0) (m - 1)
                       + (d - 1)).
        { unfold DayWithinYear. rewrite Ey, Dt. unfold civil_day. lia. }
        assert (HL : InLeapYear t = if leap_year y then 1 else 0).
        { unfold InLeapYear. now rewrite Ey. }
        pose proof (month_of_day_spec (InLeapYear t) (DayWithinYear t)
                      (InLeapYear_range t)) as M.
        specialize (M ltac:(pose proof (DayWithinYear_range t);
                            pose proof (InLeapYear_eq t); lia)).
        cbv zeta in M. fold (MonthFromTime t) in M.
        rewrite HL, HW in M. replace (MonthFromTime t) with (m - 1) in M by lia.
        unfold days_in_month. lia.
      * rewrite <- (Z.add_0_r (_ * _)), Hu. exact Hr.
    + (* a year from 0 to 99 is read as 1900 + y: the fields cannot match *)
      exfalso. pose proof (DayFromYear_le (y + 1) (1900 + y) ltac:(lia)).
      unfold civil_day in Ys. lia.
  - intros (Hm & Hd & Hy & Hr).
    assert (Hs : sub (Int m) (Int 1) = Int (m - 1)).
    { cbn [sub add]. replace (m + - (1)) with (m - 1) by lia.
      apply to_double_exact. change (2 ^ 53) with 9007199254740992. lia. }
    assert (Ht : time_value (built (Int y) (Int m) (Int d))
                 = Some (civil_day y m d * msPerDay + 0)).
    { unfold built, new_Date. cbn [time_value]. rewrite Hs. unfold Date_UTC.
      replace ((0 <=? y) && (y <=? 99)) with false
        by (destruct (Z.leb_spec 0 y); destruct (Z.leb_spec y 99);
            cbn [andb]; lia).
      rewrite (Date_UTC_month_in_year y m d Hm).
      rewrite !TimeClip_in_range; [reflexivity | | ];
        now rewrite Z.add_0_r. }
    destruct (fields_of_civil_day y m d Hm Hd) as (Fy & Fm & Fd).
    cbv zeta in Fy, Fm, Fd.
    unfold getUTCFullYear, getUTCMonth, getUTCDate, of_time. rewrite Ht.
    rewrite Fy, Fm, Fd. cbn [add].
    rewrite to_double_exact by (change (2 ^ 53) with 9007199254740992; lia).
    repeat split. f_equal. lia.
Qed.

End ComposerFacts.

(* ================================================================== *)
(** * The contract of the date helpers *)
(* ================================================================== *)

Module ComposerContract.
Import JS Composer Notions JSFacts DateFacts ComposerFacts.

(** C1.  When the three fields parse, [dateFromSelected] returns the
    date built by [Date.UTC(year, month - 1, day)] if the UTC year, month
    and day read back from it are the parsed values, and [null]
    otherwise.  So 31 April 2023 and 29 February 2023 give [null], and
    29 February 2024 gives a date. *)
Theorem dateFromSelected_iff_fields_match :
  (forall sel dayNum monthNum yearNum,
      parseNum (day sel) = Some dayNum ->
      parseNum (month sel) = Some monthNum ->
      parseNum (year sel) = Some yearNum ->
      let d := new_Date (Date_UTC yearNum (sub monthNum (Int 1)) dayNum) in
      let same_fields :=
        getUTCFullYear d = yearNum
        /\ add (getUTCMonth d) (Int 1) = monthNum
        /\ getUTCDate d = dayNum in
      (same_fields -> dateFromSelected sel = Some d)
      /\ (~ same_fields -> dateFromSelected sel = None)
      /\ (forall r, dateFromSelected sel = Some r -> r = d /\ same_fields))
  /\ dateFromSelected (numbers 31 4 2023) = None
  /\ dateFromSelected (numbers 29 2 2023) = None
  /\ dateFromSelected (numbers 29 2 2024)
     = Some (mkDate (Some 1709164800000)).
Proof.
  split; [|repeat split; vm_compute; reflexivity].
  intros sel dn mn yn Hd Hm Hy d same_fields.
  rewrite (dateFromSelected_parsed sel dn mn yn Hd Hm Hy).
  fold (built yn mn dn). fold (built yn mn dn) in d. subst d.
  apply parseNum_Some in Hd, Hm, Hy.
  destruct Hd as [_ Hd], Hm as [_ Hm], Hy as [_ Hy].
  pose proof (isValidDate_spec (built yn mn dn) yn mn dn Hy Hm Hd) as V.
  fold same_fields in V.
  destruct (isValidDate (built yn mn dn) yn mn dn).
  - assert (same_fields) by now apply V.
    split; [reflexivity|]. split; [tauto|]. intros r [= <-]. auto.
  - assert (~ same_fields) by (intros F; apply V in F; discriminate).
    split; [tauto|]. split; [reflexivity|]. discriminate.
Qed.

Lemma dateFromSelected_iff_fields_match_witness :
  let sel := {| day := Str "29"; month := Str " 2"; year := Num (Int 2024) |} in
  parseNum (day sel) = Some (Int 29)
  /\ parseNum (month sel) = Some (Int 2)
  /\ parseNum (year sel) = Some (Int 2024)
  /\ dateFromSelected sel = Some (mkDate (Some 1709164800000)).
Proof.
  intros sel.
  split; [reflexivity|]. split; [reflexivity|]. split; [reflexivity|].
  apply (proj1 dateFromSelected_iff_fields_match sel (Int 29) (Int 2) (Int 2024)
           eq_refl eq_refl eq_refl).
  vm_compute. repeat split.
Defined.

(** The days that [dateFromSelected] accepts are those of the calendar:
    a month from 1 to 12 and a day that the month has in that year. *)
Lemma dateFromSelected_calendar sel d m y :
  parseNum (day sel) = Some (Int d) ->
  parseNum (month sel) = Some (Int m) ->
  parseNum (year sel) = Some (Int y) ->
  (calendar_date y m d ->
   dateFromSelected sel = Some (mkDate (Some (civil_day y m d * msPerDay))))
  /\ (~ calendar_date y m d -> dateFromSelected sel = None).
Proof.
  intros Hd Hm Hy.
  rewrite (dateFromSelected_parsed sel _ _ _ Hd Hm Hy).
  pose proof (built_valid_iff_calendar y m d) as V.
  destruct (isValidDate (built (Int y) (Int m) (Int d)) (Int y) (Int m) (Int d))
    eqn:E.
  - assert (C : calendar_date y m d) by now apply V.
    split; [|tauto]. intros _. f_equal.
    apply isValidDate_spec in E; try discriminate.
    destruct E as (Ey & _).
    destruct (built (Int y) (Int m) (Int d)) as [[t|]] eqn:B;
      [|discriminate].
    f_equal. f_equal.
    destruct C as (Cm & Cd & Cy & Cr).
    assert (Hs : sub (Int m) (Int 1) = Int (m - 1)).
    { cbn [sub add]. replace (m + - (1)) with (m - 1) by lia.
      apply to_double_exact. change (2 ^ 53) with 9007199254740992. lia. }
    unfold built, new_Date in B. rewrite Hs in B. unfold Date_UTC in B.
    replace ((0 <=? y) && (y <=? 99)) with false in B
      by (destruct (Z.leb_spec 0 y); destruct (Z.leb_spec y 99);
          cbn [andb]; lia).
    rewrite (Date_UTC_month_in_year y m d Cm), Z.add_0_r in B.
    rewrite !TimeClip_in_range in B by exact Cr.
    now injection B.
  - split; [|reflexivity]. intros C. apply V in C. discriminate.
Qed.

(** In no year does April have a 31st, and there is no 29 February
    outside leap years. *)
Corollary no_31st_of_April sel y :
  parseNum (day sel) = Some (Int 31) ->
  parseNum (month sel) = Some (Int 4) ->
  parseNum (year sel) = Some (Int y) ->
  dateFromSelected sel = None.
Proof.
  intros Hd Hm Hy.
  apply (dateFromSelected_calendar sel 31 4 y Hd Hm Hy).
  unfold calendar_date, days_in_month. change (4 - 1) with 3.
  cbn [month_length]. intros (_ & ? & _). lia.
Qed.

Corollary no_29th_of_February_in_common_years sel y :
  parseNum (day sel) = Some (Int 29) ->
  parseNum (month sel) = Some (Int 2) ->
  parseNum (year sel) = Some (Int y) ->
  leap_year y = false ->
  dateFromSelected sel = None.
Proof.
  intros Hd Hm Hy Hl.
  apply (dateFromSelected_calendar sel 29 2 y Hd Hm Hy).
  unfold calendar_date, days_in_month. rewrite Hl. change (2 - 1) with 1.
  cbn [month_length]. intros (_ & ? & _). lia.
Qed.

(** C2.  For a day from 1 to 31, a month from 1 to 12 and a year among
    the 80 offered, when [dateFromSelected] returns a date, taking that
    date apart with [selectedFromDate] and composing again returns the
    same date. *)
Theorem compose_decompose_compose_offered currentYear d m y first :
  1 <= d <= 31 -> 1 <= m <= 12 ->
  currentYear - 79 <= y <= currentYear ->
  dateFromSelected (numbers d m y) = Some first ->
  dateFromSelected (selectedFromDate first) = Some first.
Proof. intros _ _ _. apply compose_decompose_compose. Qed.

Lemma compose_decompose_compose_offered_witness :
  1 <= 29 <= 31 /\ 1 <= 2 <= 12 /\ 2026 - 79 <= 2024 <= 2026
  /\ dateFromSelected (numbers 29 2 2024) = Some (mkDate (Some 1709164800000))
  /\ dateFromSelected (selectedFromDate (mkDate (Some 1709164800000)))
     = Some (mkDate (Some 1709164800000)).
Proof.
  split; [lia|]. split; [lia|]. split; [lia|]. split; [reflexivity|].
  apply (compose_decompose_compose_offered 2026 29 2 2024); try lia.
  reflexivity.
Defined.

(** Taking apart a composed date gives back the numbers selected. *)
Lemma decompose_compose d m y first :
  Z.abs y < 2 ^ 53 -> Z.abs m < 2 ^ 53 -> Z.abs d < 2 ^ 53 ->
  dateFromSelected (numbers d m y) = Some first ->
  selectedFromDate first = numbers d m y.
Proof.
  intros By Bm Bd H.
  destruct (dateFromSelected_Some _ _ H)
    as (dn & mn & yn & Pd & Pm & Py & _ & V).
  cbn [numbers day month year] in Pd, Pm, Py.
  rewrite parseNum_Int in Pd, Pm, Py by assumption.
  injection Pd as <-. injection Pm as <-. injection Py as <-.
  apply isValidDate_spec in V; try discriminate.
  destruct V as (Ey & Em & Ed).
  unfold selectedFromDate, numbers. now rewrite Ey, Em, Ed.
Qed.

(** C3.  When a field is missing or does not parse, [dateFromSelected]
    returns [null]; and it returns, for every selection, a date or
    [null]. *)
Theorem dateFromSelected_absent_when_unparsed :
  (forall sel,
      parseNum (day sel) = None \/ parseNum (month sel) = None
      \/ parseNum (year sel) = None ->
      dateFromSelected sel = None)
  /\ (forall v, v = Null \/ v = Undefined \/ v = Num NaN \/ v = Str "" ->
                parseNum v = None)
  /\ (forall s, stated_digits s = [] -> parseNum (Str s) = None)
  /\ (forall sel, dateFromSelected sel = None
                  \/ exists d, dateFromSelected sel = Some d)
  /\ dateFromSelected {| day := Num (Int 15); month := Str "";
                         year := Num (Int 2020) |} = None.
Proof.
  split; [|split; [|split; [|split]]].
  - intros sel H. unfold dateFromSelected.
    destruct (parseNum (day sel)); destruct (parseNum (month sel));
      destruct (parseNum (year sel)); try reflexivity;
      destruct H as [H | [H | H]]; discriminate.
  - intros v [-> | [-> | [-> | ->]]]; reflexivity.
  - intros s H. apply parseNum_None. cbn [ToString].
    unfold parseInt. unfold stated_digits in H.
    destruct (split_sign (trim_left s)) as [neg s2]. cbn [snd] in H.
    now rewrite H.
  - intros sel. destruct (dateFromSelected sel) as [d|]; eauto.
  - reflexivity.
Qed.

Lemma dateFromSelected_absent_when_unparsed_witness :
  let sel := {| day := Str "7"; month := Null; year := Str "x1999" |} in
  (parseNum (day sel) = None \/ parseNum (month sel) = None
   \/ parseNum (year sel) = None)
  /\ stated_digits "x1999" = []
  /\ dateFromSelected sel = None
  /\ parseNum (Str "x1999") = None.
Proof.
  intros sel.
  assert (H : parseNum (day sel) = None \/ parseNum (month sel) = None
              \/ parseNum (year sel) = None) by (right; left; reflexivity).
  split; [exact H|]. split; [reflexivity|]. split.
  - exact (proj1 dateFromSelected_absent_when_unparsed sel H).
  - exact (proj1 (proj2 (proj2 dateFromSelected_absent_when_unparsed))
             "x1999" eq_refl).
Defined.

End ComposerContract.

(* ================================================================== *)
(** * The class: timers and state *)
(* ================================================================== *)

Module WidgetFacts.
Import JS Composer Widget Notions WidgetNotions.

Lemma clearTimeout_subset w i t :
  In t (timers (clearTimeout w i)) -> In t (timers w).
Proof.
  destruct i as [n|]; cbn; [|auto]. intros H.
  apply filter_In in H. tauto.
Qed.

Lemma filter_none {A} (f : A -> bool) l :
  (forall x, In x l -> f x = false) -> filter f l = [].
Proof.
  induction l as [|a l IH]; intros H; [reflexivity|].
  cbn. rewrite (H a (or_introl eq_refl)). apply IH.
  intros x Hx. apply H. now right.
Qed.

(** Clearing the id that the instance holds leaves it no timer. *)
Lemma clearTimeout_own w :
  holds_its_timer w ->
  timers (clearTimeout (window w) (blurTimeoutId (this w))) = [].
Proof.
  intros H. unfold holds_its_timer in H.
  destruct (blurTimeoutId (this w)) as [n|] eqn:E; cbn.
  - apply filter_none. intros t Ht. specialize (H t Ht).
    injection H as ->. now rewrite Nat.eqb_refl.
  - destruct (timers (window w)) as [|t ts]; [reflexivity|].
    specialize (H t (or_introl eq_refl)). discriminate.
Qed.

Lemma componentWillReceiveProps_frame i p :
  props (componentWillReceiveProps i p) = props i
  /\ blurTimeoutId (componentWillReceiveProps i p) = blurTimeoutId i.
Proof.
  unfold componentWillReceiveProps. cbv zeta.
  destruct (strict_neq _ _ && instanceof_Date _); [|auto].
  destruct (value p); auto.
Qed.

Lemma step_holds_its_timer w e :
  holds_its_timer w -> holds_its_timer (step w e).
Proof.
  intros H. destruct e as [c | c | c raw | p | ms | ]; cbn [step].
  - intros t Ht. cbn in Ht. apply clearTimeout_subset in Ht. now apply H.
  - unfold handleSelectBlur, setTimeout. cbn.
    rewrite (clearTimeout_own w H). cbn.
    intros t [<- | []]. reflexivity.
  - exact H.
  - intros t Ht. cbn in Ht |- *.
    rewrite (proj2 (componentWillReceiveProps_frame (this w) p)). now apply H.
  - intros t Ht. cbn in Ht |- *. apply filter_In in Ht. apply H, Ht.
  - intros t Ht. cbn in Ht. apply clearTimeout_subset in Ht. now apply H.
Qed.

Lemma reachable_holds_its_timer w : reachable w -> holds_its_timer w.
Proof.
  induction 1 as [p clock first_id | w e _ IH _].
  - intros t []. 
  - now apply step_holds_its_timer.
Qed.

(** With no timer left, the passing of time calls nothing. *)
Lemma elapse_no_timer w ms :
  timers (window w) = [] ->
  calls (elapse w ms) = calls w /\ timers (window (elapse w ms)) = [].
Proof. intros H. unfold elapse. cbn. now rewrite H. Qed.

Lemma waiting_no_timer stretches :
  forall w, timers (window w) = [] ->
            calls (run_events w (waiting stretches)) = calls w.
Proof.
  induction stretches as [|ms l IH]; intros w H; [reflexivity|].
  cbn [waiting map run_events fold_left step].
  destruct (elapse_no_timer w ms H) as [Hc Ht].
  fold (waiting l). fold (run_events (elapse w ms) (waiting l)).
  now rewrite IH.
Qed.

(** What a blur leaves behind: one timer, due in [BLUR_TIMEOUT]. *)
Lemma handleSelectBlur_spec w :
  holds_its_timer w ->
  let w' := handleSelectBlur w in
  timers (window w')
  = [mkTimer (next_id (window w)) (now (window w) + BLUR_TIMEOUT)
             call_props_onBlur]
  /\ blurTimeoutId (this w') = Some (next_id (window w))
  /\ now (window w') = now (window w)
  /\ calls w' = calls w
  /\ state (this w') = state (this w).
Proof.
  intros H. unfold handleSelectBlur, setTimeout. cbn.
  rewrite (clearTimeout_own w H). cbn.
  repeat split; now destruct (blurTimeoutId (this w)).
Qed.

(** Before the delay is over the timer is still there and nothing was
    called. *)
Lemma blur_then_wait w ms :
  holds_its_timer w -> 0 <= ms < BLUR_TIMEOUT ->
  let w' := elapse (handleSelectBlur w) ms in
  timers (window w')
  = [mkTimer (next_id (window w)) (now (window w) + BLUR_TIMEOUT)
             call_props_onBlur]
  /\ blurTimeoutId (this w') = Some (next_id (window w))
  /\ calls w' = calls w.
Proof.
  intros H Hms.
  destruct (handleSelectBlur_spec w H) as (Ht & Hi & Hn & Hc & _).
  cbv zeta in *. unfold elapse. cbn [timers window this calls].
  rewrite Ht, Hn, Hc. cbn [filter due].
  destruct (Z.leb_spec (now (window w) + BLUR_TIMEOUT)
              (now (window w) + Z.max 0 ms)); [lia|].
  cbn. auto.
Qed.

(** When the delay is over the function runs: one call of [onBlur]. *)
Lemma blur_then_wait_long w ms :
  holds_its_timer w -> BLUR_TIMEOUT <= ms ->
  let w' := elapse (handleSelectBlur w) ms in
  timers (window w') = [] /\ calls w' = (calls w ++ [onBlur])%list.
Proof.
  intros H Hms.
  destruct (handleSelectBlur_spec w H) as (Ht & Hi & Hn & Hc & _).
  cbv zeta in *. unfold elapse. cbn [timers window this calls].
  rewrite Ht, Hn, Hc. cbn [filter due].
  destruct (Z.leb_spec (now (window w) + BLUR_TIMEOUT)
              (now (window w) + Z.max 0 ms)); [|lia].
  cbn. auto.
Qed.

Lemma run_events_app w es fs :
  run_events w (es ++ fs) = run_events (run_events w es) fs.
Proof. unfold run_events. apply fold_left_app. Qed.

Lemma blur_calls_app cs ds :
  blur_calls (cs ++ ds) = (blur_calls cs + blur_calls ds)%nat.
Proof. unfold blur_calls. now rewrite filter_app, length_app. Qed.

End WidgetFacts.

(* ================================================================== *)
(** * The contract of the class *)
(* ================================================================== *)

Module WidgetContract.
Import JS Composer Widget Notions WidgetNotions.
Import JSFacts ComposerFacts WidgetFacts.

Lemma field_with_field s t v : field t (with_field s t v) = v.
Proof. destruct t; reflexivity. Qed.

Lemma field_with_other s t u v :
  t <> u -> field u (with_field s t v) = field u s.
Proof. destruct t, u; congruence || reflexivity. Qed.

(** C4.  A change of one control parses the raw value, puts it in its
    field of the selection, calls [onChange] once, with the date
    composed from the new selection or with [null], and keeps the new
    selection as the state in both cases; timers and props are left
    alone.  Changing March 31st to April leaves 31 and 4 selected and
    hands [null] to [onChange]. *)
Theorem handleSelectChange_emits_and_keeps :
  (forall w c raw,
      let w' := step w (Change c raw) in
      let merged := selected (state (this w')) in
      field (type_of c) merged = nullable (parseNum (Str raw))
      /\ (forall u, u <> type_of c ->
                    field u merged = field u (selected (state (this w))))
      /\ calls w' = (calls w ++ [onChange (dateFromSelected merged)])%list
      /\ window w' = window w
      /\ props (this w') = props (this w)
      /\ blurTimeoutId (this w') = blurTimeoutId (this w))
  /\ (forall i clock n,
         let w := run_events (mount {| id := i; value := None |} clock n)
                    [Change day_select "31"; Change year_select "2023";
                     Change month_select "3"; Change month_select "4"] in
         selected (state (this w)) = numbers 31 4 2023
         /\ calls w = [onChange None; onChange None;
                       onChange (Some (mkDate (Some 1680220800000)));
                       onChange None]).
Proof.
  split.
  - intros w c raw. cbn [step]. unfold handleSelectChange. cbn.
    split; [apply field_with_field|].
    split; [intros u Hu; apply field_with_other; congruence|].
    auto.
  - intros i clock n. split; vm_compute; reflexivity.
Qed.

Lemma handleSelectChange_emits_and_keeps_witness :
  let w := run_events (mount {| id := Str "birthday"; value := None |} 0 1)
             [Change day_select "31"; Change month_select "3";
              Change year_select "2023"] in
  let w' := step w (Change month_select "4") in
  type_day <> type_of month_select
  /\ calls w = [onChange None; onChange None;
                onChange (Some (mkDate (Some 1680220800000)))]
  /\ field type_month (selected (state (this w'))) = Num (Int 4)
  /\ field type_day (selected (state (this w'))) = Num (Int 31)
  /\ calls w' = (calls w ++ [onChange None])%list.
Proof.
  intros w w'.
  assert (N : type_day <> type_of month_select) by discriminate.
  destruct (proj1 handleSelectChange_emits_and_keeps w month_select "4")
    as (F & O & C & _).
  split; [exact N|]. split; [reflexivity|]. split; [exact F|].
  split; [exact (O type_day N)|]. exact C.
Defined.

(** C5.  A focus while a blur notification is pending clears the timer
    and calls [onFocus] at once; so after a blur and a focus less than
    [BLUR_TIMEOUT] later, [onBlur] is not called however long one
    waits. *)
Theorem focus_cancels_pending_blur w :
  reachable w ->
  (forall c,
      blur_pending w ->
      timers (window (step w (Focus c))) = []
      /\ calls (step w (Focus c)) = (calls w ++ [onFocus])%list)
  /\ (forall a b ms later,
         0 <= ms < BLUR_TIMEOUT ->
         let pending := run_events w [Blur a; Elapse ms] in
         let final :=
           run_events w ([Blur a; Elapse ms; Focus b] ++ waiting later) in
         blur_pending pending
         /\ calls final = (calls w ++ [onFocus])%list
         /\ blur_calls (calls final) = blur_calls (calls w)).
Proof.
  intros R. pose proof (reachable_holds_its_timer w R) as H.
  split.
  - intros c _. cbn [step]. unfold handleSelectFocus. cbn.
    now rewrite (clearTimeout_own w H).
  - intros a b ms later Hms pending final.
    destruct (blur_then_wait w ms H Hms) as (Ht & Hi & Hc).
    cbv zeta in Ht, Hi, Hc.
    assert (Hp : pending = elapse (handleSelectBlur w) ms) by reflexivity.
    split; [unfold blur_pending; rewrite Hp, Ht; discriminate|].
    assert (Hf : calls final = (calls w ++ [onFocus])%list).
    { unfold final. rewrite run_events_app.
      change (run_events w [Blur a; Elapse ms; Focus b])
        with (handleSelectFocus pending).
      rewrite waiting_no_timer.
      - unfold handleSelectFocus. cbn [calls]. now rewrite Hp, Hc.
      - unfold handleSelectFocus. cbn [window]. rewrite Hp, Hi.
        unfold clearTimeout. cbn [timers]. rewrite Ht. cbn.
        now rewrite Nat.eqb_refl. }
    split; [exact Hf|].
    rewrite Hf, blur_calls_app. cbn. lia.
Qed.

Lemma focus_cancels_pending_blur_witness :
  let w := mount {| id := Str "birthday"; value := None |} 0 1 in
  reachable w
  /\ 0 <= 60 < BLUR_TIMEOUT
  /\ calls (run_events w ([Blur day_select; Elapse 60; Focus month_select]
                          ++ waiting [40; 500]))
     = [onFocus].
Proof.
  intros w. split; [apply reachable_mount|]. split; [unfold BLUR_TIMEOUT; lia|].
  apply (proj2 (focus_cancels_pending_blur w (reachable_mount _ _ _))
           day_select month_select 60 [40; 500]).
  unfold BLUR_TIMEOUT. lia.
Defined.

(** Left alone, the blur notification does arrive, once. *)
Lemma blur_notifies_after_timeout w a ms later :
  reachable w -> BLUR_TIMEOUT <= ms ->
  calls (run_events w ([Blur a; Elapse ms] ++ waiting later))
  = (calls w ++ [onBlur])%list.
Proof.
  intros R Hms. pose proof (reachable_holds_its_timer w R) as H.
  destruct (blur_then_wait_long w ms H Hms) as (Ht & Hc). cbv zeta in Ht, Hc.
  rewrite run_events_app.
  change (run_events w [Blur a; Elapse ms])
    with (elapse (handleSelectBlur w) ms).
  now rewrite waiting_no_timer.
Qed.

(** C6.  Unmounting while a blur notification is pending clears the
    timer: [onBlur] is not called afterwards, however long one waits. *)
Theorem unmount_cancels_pending_blur w a ms later :
  reachable w -> 0 <= ms < BLUR_TIMEOUT ->
  let pending := run_events w [Blur a; Elapse ms] in
  let final := run_events w ([Blur a; Elapse ms; Unmount] ++ waiting later) in
  blur_pending pending
  /\ timers (window (step pending Unmount)) = []
  /\ calls final = calls w
  /\ blur_calls (calls final) = blur_calls (calls w).
Proof.
  intros R Hms pending final.
  pose proof (reachable_holds_its_timer w R) as H.
  destruct (blur_then_wait w ms H Hms) as (Ht & Hi & Hc).
  cbv zeta in Ht, Hi, Hc.
  assert (Hp : pending = elapse (handleSelectBlur w) ms) by reflexivity.
  assert (Hu : timers (window (step pending Unmount)) = []).
  { cbn [step]. unfold componentWillUnmount. cbn [window]. rewrite Hp, Hi.
    unfold clearTimeout. cbn [timers]. rewrite Ht. cbn.
    now rewrite Nat.eqb_refl. }
  split; [unfold blur_pending; rewrite Hp, Ht; discriminate|].
  split; [exact Hu|].
  assert (Hf : calls final = calls w).
  { unfold final. rewrite run_events_app.
    change (run_events w [Blur a; Elapse ms; Unmount])
      with (componentWillUnmount pending).
    rewrite waiting_no_timer by exact Hu.
    unfold componentWillUnmount. cbn [calls]. now rewrite Hp, Hc. }
  split; [exact Hf|now rewrite Hf].
Qed.

Lemma unmount_cancels_pending_blur_witness :
  let w := mount {| id := Str "birthday"; value := None |} 0 1 in
  reachable w
  /\ 0 <= 99 < BLUR_TIMEOUT
  /\ calls (run_events w ([Blur year_select; Elapse 99; Unmount]
                          ++ waiting [1; 1000]))
     = [].
Proof.
  intros w. split; [apply reachable_mount|]. split; [unfold BLUR_TIMEOUT; lia|].
  apply (unmount_cancels_pending_blur w year_select 99 [1; 1000]
           (reachable_mount _ _ _)).
  unfold BLUR_TIMEOUT. lia.
Defined.

(** C7.  New props replace the selection by the fields of the new value
    when the value is another object than before and is a Date; in every
    other case, also when a Date gives way to [null], the selection
    stays as it was. *)
Theorem componentWillReceiveProps_resync i newProps :
  let i' := componentWillReceiveProps i newProps in
  (forall v, value newProps = Some v ->
             strict_neq (value (props i)) (value newProps) = true ->
             selected (state i') = selectedFromDate (date v))
  /\ (strict_neq (value (props i)) (value newProps) = false
      \/ instanceof_Date (value newProps) = false ->
      i' = i)
  /\ (forall old, value (props i) = Some old -> value newProps = None ->
                  selected (state i') = selected (state i))
  /\ props i' = props i
  /\ blurTimeoutId i' = blurTimeoutId i.
Proof.
  intros i'. subst i'. unfold componentWillReceiveProps. cbv zeta.
  split; [|split; [|split]].
  - intros v Hv Hc. rewrite Hc, Hv. reflexivity.
  - intros [Hc | Hd]; [now rewrite Hc|].
    rewrite Hd, andb_false_r. reflexivity.
  - intros old Ho Hn. rewrite Hn. cbn.
    now rewrite andb_false_r.
  - destruct (strict_neq _ _ && instanceof_Date _); [|auto].
    destruct (value newProps); auto.
Qed.

Lemma componentWillReceiveProps_resync_witness :
  let d1 := {| ref := 1; date := mkDate (Some 0) |} in
  let d2 := {| ref := 2; date := mkDate (Some 1709164800000) |} in
  let i := componentWillMount
             (constructor {| id := Str "birthday"; value := Some d1 |}) in
  selected (state i) = numbers 1 1 1970
  /\ selected (state (componentWillReceiveProps i
                        {| id := Str "birthday"; value := Some d2 |}))
     = numbers 29 2 2024
  /\ componentWillReceiveProps i {| id := Str "birthday"; value := None |} = i
  /\ componentWillReceiveProps i {| id := Str "other"; value := Some d1 |} = i.
Proof.
  intros d1 d2 i. split; [reflexivity|]. split; [|split].
  - exact (proj1 (componentWillReceiveProps_resync i
                    {| id := Str "birthday"; value := Some d2 |})
             d2 eq_refl eq_refl).
  - exact (proj1 (proj2 (componentWillReceiveProps_resync i
                           {| id := Str "birthday"; value := None |}))
             (or_intror eq_refl)).
  - exact (proj1 (proj2 (componentWillReceiveProps_resync i
                           {| id := Str "other"; value := Some d1 |}))
             (or_introl eq_refl)).
Defined.





(** ** The options *)

Lemma option_values_of (f : Z -> string) l :
  flat_map (fun o => match o with
                     | empty_option => []
                     | option_of _ v _ => [v]
                     end)
           (empty_option :: map (fun d => option_of d d (f d)) l) = l.
Proof.
  cbn [flat_map app]. induction l as [|a l IH]; [reflexivity|].
  cbn [map flat_map app]. now rewrite IH.
Qed.

Lemma option_texts_of (f : Z -> string) l :
  flat_map (fun o => match o with
                     | empty_option => []
                     | option_of _ _ t => [t]
                     end)
           (empty_option :: map (fun d => option_of d d (f d)) l) = map f l.
Proof.
  cbn [flat_map app]. induction l as [|a l IH]; [reflexivity|].
  cbn [map flat_map app]. now rewrite IH.
Qed.

Lemma years_spec currentYear :
  years currentYear = map (fun k => currentYear - Z.of_nat k) (seq 0 80).
Proof.
  unfold years, range3, range_length, yearsToShow.
  replace (currentYear - (currentYear - 80)) with 80 by lia.
  change (Z.to_nat (Z.max (- (80 / (if -1 =? 0 then 1 else -1))) 0))
    with 80%nat.
  apply map_ext. intros k. lia.
Qed.

(** C9.  Whatever is selected, the first control offers 1 to 31, the
    second 1 to 12 and the third the current year and the 79 years
    before it, latest first; days and months are shown with two digits,
    years as they are. *)
Theorem option_domains_fixed currentYear i :
  map option_values (render currentYear i)
  = [ [1; 2; 3; 4; 5; 6; 7; 8; 9; 10; 11; 12; 13; 14; 15; 16; 17; 18;
      19; 20; 21; 22; 23; 24; 25; 26; 27; 28; 29; 30; 31];
      [1; 2; 3; 4; 5; 6; 7; 8; 9; 10; 11; 12];
      map (fun k => currentYear - Z.of_nat k) (seq 0 80) ]
  /\ map option_texts (render currentYear i)
     = [ ["01"; "02"; "03"; "04"; "05"; "06"; "07"; "08"; "09"; "10";
         "11"; "12"; "13"; "14"; "15"; "16"; "17"; "18"; "19"; "20";
         "21"; "22"; "23"; "24"; "25"; "26"; "27"; "28"; "29"; "30";
         "31"];
         ["01"; "02"; "03"; "04"; "05"; "06"; "07"; "08"; "09"; "10";
         "11"; "12"];
         map (fun k => number_toString (Int (currentYear - Z.of_nat k)))
             (seq 0 80) ]
  /\ map (fun s => hd_error (options s)) (render currentYear i)
     = [Some empty_option; Some empty_option; Some empty_option]
  /\ List.length (years currentYear) = 80%nat
  /\ hd_error (years currentYear) = Some currentYear
  /\ last (years currentYear) 0 = currentYear - 79
  /\ pad (Int 7) = "07" /\ number_toString (Int 7) = "7".
Proof.
  unfold render, option_values, option_texts.
  cbn [map options hd_error]. rewrite !option_values_of, !option_texts_of.
  rewrite years_spec, map_map.
  split; [reflexivity|]. split; [reflexivity|]. split; [reflexivity|].
  split; [now rewrite length_map, length_seq|].
  split; [cbn; f_equal; lia|].
  split; [|split; reflexivity].
  cbn [seq map last]. lia.
Qed.

End WidgetContract.

(* ================================================================== *)
(** * The contract of the field wrapper *)
(* ================================================================== *)

Module FieldContract.
Import JS Field.

(** C8.  With a label and no id the wrapper throws; with any other
    label and id it returns its element.  A label is given, and an id is
    there, when the value is truthy: [null], [undefined] and the empty
    string are not. *)
Theorem label_requires_id
  (css_fieldRoot : string) (Input Meta : Type) (p : FieldProps Input Meta) :
  (truthy (label _ _ p) = true /\ truthy (id _ _ p) = false ->
   BirthdayInputFieldComponent css_fieldRoot _ _ p
   = Throws _ _ "id required when a label is given")
  /\ (~ (truthy (label _ _ p) = true /\ truthy (id _ _ p) = false) ->
      exists e, BirthdayInputFieldComponent css_fieldRoot _ _ p
                = Returns _ _ e)
  /\ (forall l, l <> "" -> label _ _ p = Str l ->
                id _ _ p = Null \/ id _ _ p = Undefined \/ id _ _ p = Str "" ->
                BirthdayInputFieldComponent css_fieldRoot _ _ p
                = Throws _ _ "id required when a label is given").
Proof.
  unfold BirthdayInputFieldComponent.
  split; [|split].
  - intros [-> ->]. reflexivity.
  - intros H.
    destruct (truthy (label _ _ p)); destruct (truthy (id _ _ p));
      cbn [andb negb]; try (eexists; reflexivity).
    exfalso. apply H. auto.
  - intros l Hl -> Hid. cbn [truthy].
    destruct (String.eqb_spec l ""); [contradiction|].
    destruct Hid as [-> | [-> | ->]]; reflexivity.
Qed.

Lemma label_requires_id_witness :
  let p := {| rootClassName := Null; className := Null; id := Null;
              label := Str "Birthday"; input := tt; meta := tt |} in
  let q := {| rootClassName := Null; className := Str "wide";
              id := Str "bday"; label := Str "Birthday";
              input := tt; meta := tt |} in
  truthy (label _ _ p) = true /\ truthy (id _ _ p) = false
  /\ BirthdayInputFieldComponent "fieldRoot" unit unit p
     = Throws _ _ "id required when a label is given"
  /\ ~ (truthy (label _ _ q) = true /\ truthy (id _ _ q) = false)
  /\ exists e, BirthdayInputFieldComponent "fieldRoot" unit unit q
               = Returns _ _ e.
Proof.
  intros p q.
  assert (N : ~ (truthy (label _ _ q) = true /\ truthy (id _ _ q) = false))
    by (intros [_ H]; discriminate H).
  split; [reflexivity|]. split; [reflexivity|]. split; [|split; [exact N|]].
  - exact (proj1 (label_requires_id "fieldRoot" unit unit p)
             (conj eq_refl eq_refl)).
  - exact (proj1 (proj2 (label_requires_id "fieldRoot" unit unit q)) N).
Defined.

End FieldContract.

(* ================================================================== *)
(** * More on the date helpers *)
(* ================================================================== *)

Module ComposerMore.
Import JS Composer Notions MoreNotions JSFacts DateFacts ComposerFacts.

Lemma sub_one_exact m : Z.abs m < 2 ^ 52 -> sub (Int m) (Int 1) = Int (m - 1).
Proof.
  intros H. cbn [sub add]. replace (m + - (1)) with (m - 1) by lia.
  apply to_double_exact. change (2 ^ 52) with 4503599627370496 in H.
  change (2 ^ 53) with 9007199254740992. lia.
Qed.

Lemma built_calendar_time y m d :
  calendar_date y m d ->
  built (Int y) (Int m) (Int d) = mkDate (Some (civil_day y m d * msPerDay)).
Proof.
  intros (Cm & Cd & Cy & Cr).
  unfold built, new_Date.
  rewrite sub_one_exact by (change (2 ^ 52) with 4503599627370496; lia).
  unfold Date_UTC.
  replace ((0 <=? y) && (y <=? 99)) with false
    by (destruct (Z.leb_spec 0 y); destruct (Z.leb_spec y 99);
        cbn [andb]; lia).
  rewrite (Date_UTC_month_in_year y m d Cm), Z.add_0_r.
  now rewrite !TimeClip_in_range by exact Cr.
Qed.

(** X1.  When the three fields parse to integers, [dateFromSelected]
    returns a date exactly for the days of the calendar: a month from 1
    to 12, a day that this month has in this year, a year outside 0..99
    (which [Date.UTC] reads as 1900..1999) and a day inside the range of
    Date; the date is then midnight UTC of that day. *)
Theorem dateFromSelected_accepts_calendar_days sel d m y :
  parseNum (day sel) = Some (Int d) ->
  parseNum (month sel) = Some (Int m) ->
  parseNum (year sel) = Some (Int y) ->
  (calendar_date y m d ->
   dateFromSelected sel = Some (mkDate (Some (civil_day y m d * msPerDay))))
  /\ (~ calendar_date y m d -> dateFromSelected sel = None).
Proof.
  intros Hd Hm Hy.
  rewrite (dateFromSelected_parsed sel _ _ _ Hd Hm Hy).
  pose proof (built_valid_iff_calendar y m d) as V.
  split.
  - intros C. rewrite (proj2 V C). f_equal. now apply built_calendar_time.
  - intros C.
    destruct (isValidDate (built (Int y) (Int m) (Int d)) (Int y) (Int m)
                (Int d)); [|reflexivity].
    exfalso. apply C, V. reflexivity.
Qed.

Lemma dateFromSelected_accepts_calendar_days_witness :
  let leap := {| day := Str "29"; month := Str "02"; year := Str "2000" |} in
  let common := {| day := Str "29"; month := Str "02"; year := Str "1900" |} in
  calendar_date 2000 2 29 /\ ~ calendar_date 1900 2 29
  /\ dateFromSelected leap = Some (mkDate (Some 951782400000))
  /\ dateFromSelected common = None.
Proof.
  intros leap common.
  assert (C : calendar_date 2000 2 29).
  { unfold calendar_date, in_time_range.
    change (days_in_month 2000 2) with 29.
    change (civil_day 2000 2 29 * msPerDay) with 951782400000. lia. }
  assert (N : ~ calendar_date 1900 2 29).
  { intros (_ & H & _). change (days_in_month 1900 2) with 28 in H. lia. }
  split; [exact C|]. split; [exact N|]. split.
  - exact (proj1 (dateFromSelected_accepts_calendar_days leap 29 2 2000
                    eq_refl eq_refl eq_refl) C).
  - exact (proj2 (dateFromSelected_accepts_calendar_days common 29 2 1900
                    eq_refl eq_refl eq_refl) N).
Defined.

(** X2.  The date that [dateFromSelected] returns decomposes, with
    [selectedFromDate], into the numbers that the fields of the selection
    parse to: strings come back as numbers, numbers as they were read. *)
Theorem selectedFromDate_of_composed sel r :
  dateFromSelected sel = Some r ->
  exists dayNum monthNum yearNum,
    parseNum (day sel) = Some dayNum
    /\ parseNum (month sel) = Some monthNum
    /\ parseNum (year sel) = Some yearNum
    /\ selectedFromDate r
       = {| day := Num dayNum; month := Num monthNum; year := Num yearNum |}.
Proof.
  intros H.
  destruct (dateFromSelected_Some sel r H)
    as (dn & mn & yn & Pd & Pm & Py & _ & V).
  exists dn, mn, yn. repeat split; try assumption.
  apply parseNum_Some in Pd, Pm, Py.
  apply isValidDate_spec in V; try tauto.
  destruct V as (Ey & Em & Ed).
  unfold selectedFromDate. now rewrite Ey, Em, Ed.
Qed.

Lemma selectedFromDate_of_composed_witness :
  let sel := {| day := Str "9"; month := Str " 07"; year := Num (Int 1999) |} in
  dateFromSelected sel = Some (mkDate (Some 931478400000))
  /\ exists dn mn yn,
       parseNum (day sel) = Some dn /\ parseNum (month sel) = Some mn
       /\ parseNum (year sel) = Some yn
       /\ selectedFromDate (mkDate (Some 931478400000))
          = {| day := Num dn; month := Num mn; year := Num yn |}.
Proof.
  intros sel.
  assert (E : dateFromSelected sel = Some (mkDate (Some 931478400000)))
    by reflexivity.
  split; [exact E|].
  exact (selectedFromDate_of_composed sel (mkDate (Some 931478400000)) E).
Defined.

Lemma civil_day_of_time t :
  civil_day (YearFromTime t) (MonthFromTime t + 1) (DateFromTime t) = Day t.
Proof.
  unfold civil_day, DateFromTime, DayWithinYear.
  replace (MonthFromTime t + 1 - 1) with (MonthFromTime t) by lia.
  unfold InLeapYear. lia.
Qed.

Lemma midnight_in_range t :
  in_time_range t -> in_time_range (Day t * msPerDay).
Proof. unfold in_time_range, Day, msPerDay. intros H. zlia. Qed.

Lemma calendar_date_of_time t :
  in_time_range t -> ~ (0 <= YearFromTime t <= 99) ->
  calendar_date (YearFromTime t) (MonthFromTime t + 1) (DateFromTime t).
Proof.
  intros Hr Hy. unfold calendar_date.
  pose proof (MonthFromTime_range t) as Rm.
  pose proof (DateFromTime_range t) as Rd.
  split; [lia|]. split; [|split; [exact Hy|]].
  - split; [lia|]. unfold days_in_month.
    replace (MonthFromTime t + 1 - 1) with (MonthFromTime t) by lia.
    pose proof (month_of_day_spec (InLeapYear t) (DayWithinYear t)
                  (InLeapYear_range t)
                  ltac:(pose proof (DayWithinYear_range t);
                        pose proof (InLeapYear_eq t); lia)) as M.
    cbv zeta in M. fold (MonthFromTime t) in M.
    unfold DateFromTime. unfold InLeapYear in *. lia.
  - rewrite civil_day_of_time. now apply midnight_in_range.
Qed.

(** X3.  Taking a Date apart and composing the parts keeps the UTC day
    and drops the time of day: the result is midnight UTC of the same
    day.  Two kinds of Date do not come back at all: the invalid Date,
    and every Date in the years 0 to 99, whose year [Date.UTC] reads as
    1900 + year. *)
Theorem dateFromSelected_of_decomposed date :
  (time_value date = None ->
   dateFromSelected (selectedFromDate date) = None)
  /\ (forall t,
         time_value date = Some t -> in_time_range t ->
         (0 <= YearFromTime t <= 99 ->
          dateFromSelected (selectedFromDate date) = None)
         /\ (~ (0 <= YearFromTime t <= 99) ->
             dateFromSelected (selectedFromDate date)
             = Some (mkDate (Some (Day t * msPerDay))))).
Proof.
  split.
  - intros H. unfold selectedFromDate, getUTCDate, getUTCMonth,
      getUTCFullYear, of_time. rewrite H. reflexivity.
  - intros t Ht Hr.
    destruct (fields_exact date t Ht Hr) as (Fy & Fm & Fd & By & Bm & Bd).
    assert (P : forall z, Z.abs z < 2 ^ 53 -> parseNum (Num (Int z)) = Some (Int z))
      by (intros; now apply parseNum_Int).
    pose proof (ComposerContract.dateFromSelected_calendar
                  (selectedFromDate date) (DateFromTime t)
                  (MonthFromTime t + 1) (YearFromTime t)) as C.
    unfold selectedFromDate in C |- *. cbn [day month year] in C.
    rewrite Fy, Fm, Fd in C |- *.
    specialize (C (P _ Bd) (P _ Bm) (P _ By)). destruct C as [C1 C2].
    split.
    + intros Hy. apply C2. intros (_ & _ & N & _). tauto.
    + intros Hy. rewrite C1 by now apply calendar_date_of_time.
      now rewrite civil_day_of_time.
Qed.

Lemma dateFromSelected_of_decomposed_witness :
  let noon := mkDate (Some 1709208000000) in      (* 29 Feb 2024, 12:00 *)
  let old := mkDate (Some (-60000000000000)) in   (* in the year 68 *)
  in_time_range 1709208000000 /\ ~ (0 <= YearFromTime 1709208000000 <= 99)
  /\ dateFromSelected (selectedFromDate noon)
     = Some (mkDate (Some 1709164800000))
  /\ in_time_range (-60000000000000)
  /\ 0 <= YearFromTime (-60000000000000) <= 99
  /\ dateFromSelected (selectedFromDate old) = None.
Proof.
  intros noon old.
  assert (R1 : in_time_range 1709208000000) by (unfold in_time_range; lia).
  assert (Y1 : ~ (0 <= YearFromTime 1709208000000 <= 99))
    by (change (YearFromTime 1709208000000) with 2024; lia).
  assert (R2 : in_time_range (-60000000000000)) by (unfold in_time_range; lia).
  assert (Y2 : 0 <= YearFromTime (-60000000000000) <= 99)
    by (change (YearFromTime (-60000000000000)) with 68; lia).
  split; [exact R1|]. split; [exact Y1|]. split; [|split; [exact R2|split; [exact Y2|]]].
  - exact (proj2 (proj2 (dateFromSelected_of_decomposed noon)
                    1709208000000 eq_refl R1) Y1).
  - exact (proj1 (proj2 (dateFromSelected_of_decomposed old)
                    (-60000000000000) eq_refl R2) Y2).
Defined.

(** X4.  A number that [parseNum] returned parses to itself when it is
    below 2^53 in magnitude, and [null] stays [null]; so parsing what is
    stored in the state changes nothing.  The bound matters: from 10^21
    on a Number prints with an exponent and [parseNum] reads its first
    digit only. *)
Theorem parseNum_of_parsed v :
  (parseNum v = None -> parseNum (Widget.nullable (parseNum v)) = None)
  /\ (forall z, parseNum v = Some (Int z) -> Z.abs z < 2 ^ 53 ->
                parseNum (Widget.nullable (parseNum v)) = parseNum v)
  /\ parseNum (Str "1000000000000000000000") = Some (Int (10 ^ 21))
  /\ parseNum (Num (Int (10 ^ 21))) = Some (Int 1).
Proof.
  split; [|split; [|split]].
  - intros ->. reflexivity.
  - intros z -> Hz. cbn [Widget.nullable]. now apply parseNum_Int.
  - vm_compute. reflexivity.
  - vm_compute. reflexivity.
Qed.

Lemma parseNum_of_parsed_witness :
  parseNum (Str "  -42 years") = Some (Int (-42))
  /\ Z.abs (-42) < 2 ^ 53
  /\ parseNum (Num (Int (-42))) = Some (Int (-42))
  /\ parseNum (Str "none") = None
  /\ parseNum Null = None.
Proof.
  assert (B : Z.abs (-42) < 2 ^ 53) by (vm_compute; reflexivity).
  split; [reflexivity|]. split; [exact B|]. split; [|split].
  - exact (proj1 (proj2 (parseNum_of_parsed (Str "  -42 years")))
             (-42) eq_refl B).
  - reflexivity.
  - exact (proj1 (parseNum_of_parsed (Str "none")) eq_refl).
Defined.

(** X5.  [isValidDate] never holds for the invalid Date, nor for a
    number that is [NaN] or infinite; when it holds, the numbers are the
    integer fields of the date, with the month from 1 to 12 and the day
    from 1 to 31. *)
Theorem isValidDate_sound date y m d :
  isValidDate date y m d = true ->
  exists t,
    time_value date = Some t
    /\ y = Int (YearFromTime t)
    /\ m = Int (MonthFromTime t + 1) /\ 1 <= MonthFromTime t + 1 <= 12
    /\ d = Int (DateFromTime t) /\ 1 <= DateFromTime t <= 31.
Proof.
  unfold isValidDate. cbv zeta. rewrite !andb_true_iff.
  intros [[Hy Hm] Hd].
  unfold getUTCFullYear, getUTCMonth, getUTCDate, of_time in *.
  destruct (time_value date) as [t|]; [|discriminate Hy].
  apply strict_eq_eq in Hy, Hm, Hd.
  exists t.
  pose proof (MonthFromTime_range t) as Rm.
  pose proof (DateFromTime_range t) as Rd.
  cbn [add] in Hm.
  rewrite to_double_exact in Hm
    by (change (2 ^ 53) with 9007199254740992; lia).
  repeat split; auto; lia.
Qed.

Lemma isValidDate_sound_witness :
  isValidDate (mkDate (Some 1709164800000)) (Int 2024) (Int 2) (Int 29) = true
  /\ exists t, Some 1709164800000 = Some t
               /\ Int 2024 = Int (YearFromTime t)
               /\ Int 2 = Int (MonthFromTime t + 1)
               /\ 1 <= MonthFromTime t + 1 <= 12
               /\ Int 29 = Int (DateFromTime t)
               /\ 1 <= DateFromTime t <= 31.
Proof.
  assert (V : isValidDate (mkDate (Some 1709164800000)) (Int 2024) (Int 2)
                (Int 29) = true) by reflexivity.
  split; [exact V|].
  exact (isValidDate_sound (mkDate (Some 1709164800000)) (Int 2024) (Int 2)
           (Int 29) V).
Defined.

Lemma length_string_of_digits ds :
  String.length (string_of_digits ds) = List.length ds.
Proof.
  induction ds as [|d ds IH]; [reflexivity|].
  change (string_of_digits (d :: ds))
    with (String (digit_char d) (string_of_digits ds)).
  cbn [String.length List.length]. now rewrite IH.
Qed.

Lemma digits_of_one n : 0 <= n < 10 -> digits_of n = [n].
Proof.
  intros H. unfold digits_of. cbn [digits_fuel].
  destruct (Z.ltb_spec n 10); [reflexivity|lia].
Qed.

Lemma digits_of_two n : 10 <= n <= 99 -> digits_of n = [n / 10; n mod 10].
Proof.
  intros H. unfold digits_of.
  assert (L : 3 <= Z.log2 n) by (change 3 with (Z.log2 8);
                                 apply Z.log2_le_mono; lia).
  destruct (Z.to_nat (Z.log2 n)) as [|k] eqn:E; [lia|].
  cbn [digits_fuel].
  destruct (Z.ltb_spec n 10); [lia|].
  destruct (Z.ltb_spec (n / 10) 10) as [_|G]; [reflexivity|].
  exfalso. revert G. zlia.
Qed.

(** X6.  What [pad] prints reads back, with [parseInt], as the number
    it was given; the numbers from 0 to 99 print in exactly two
    characters, and a negative number or one from 10 on prints as it is,
    without a zero. *)
Theorem pad_reads_back n :
  Z.abs n < 2 ^ 53 ->
  parseInt (pad (Int n)) = Int n
  /\ (0 <= n <= 99 -> String.length (pad (Int n)) = 2%nat)
  /\ (n < 0 \/ 10 <= n -> pad (Int n) = number_toString (Int n)).
Proof.
  intros Hn. unfold pad. cbn [geb ltb].
  destruct (Z.ltb_spec n 0) as [Hneg|Hpos]; cbn [negb andb].
  - split; [now apply parseInt_number_toString|]. split; [lia|reflexivity].
  - destruct (Z.ltb_spec n 10) as [Hlt|Hge].
    + assert (E : number_toString (Int n) = string_of_digits [n]).
      { unfold number_toString. rewrite Z.abs_eq by exact Hpos.
        destruct (Z.ltb_spec n (10 ^ 21)) as [_|B];
          [|change (10 ^ 21) with 1000000000000000000000 in B; lia].
        destruct (Z.ltb_spec n 0); [lia|].
        now rewrite digits_of_one by lia. }
      rewrite E. split; [|split; [reflexivity|lia]].
      change ("0" ++ string_of_digits [n])%string
        with (string_of_digits [0; n]).
      rewrite <- (append_empty_r (string_of_digits [0; n])).
      rewrite parseInt_digits; try reflexivity; try discriminate.
      * unfold digits_value. cbn [fold_left].
        replace (10 * (10 * 0 + 0) + n) with n by lia.
        now apply to_double_exact.
      * repeat constructor; unfold is_digit_value; lia.
    + split; [now apply parseInt_number_toString|]. split; [|reflexivity].
      intros H99. unfold number_toString. rewrite Z.abs_eq by exact Hpos.
      destruct (Z.ltb_spec n (10 ^ 21)) as [_|B];
        [|change (10 ^ 21) with 1000000000000000000000 in B; lia].
      destruct (Z.ltb_spec n 0); [lia|].
      rewrite digits_of_two by lia. apply length_string_of_digits.
Qed.

Lemma pad_reads_back_witness :
  Z.abs 7 < 2 ^ 53 /\ 0 <= 7 <= 99 /\ pad (Int 7) = "07"
  /\ parseInt (pad (Int 7)) = Int 7 /\ String.length (pad (Int 7)) = 2%nat
  /\ pad (Int (-7)) = number_toString (Int (-7)).
Proof.
  assert (B : forall z, -100 < z < 100 -> Z.abs z < 2 ^ 53)
    by (intros; change (2 ^ 53) with 9007199254740992; lia).
  split; [apply B; lia|]. split; [lia|]. split; [reflexivity|].
  destruct (pad_reads_back 7 (B 7 ltac:(lia))) as (P & L & _).
  split; [exact P|]. split; [apply L; lia|].
  apply (pad_reads_back (-7) (B (-7) ltac:(lia))). left. lia.
Defined.

End ComposerMore.

(* ================================================================== *)
(** * More on the class *)
(* ================================================================== *)

Module WidgetMore.
Import JS Composer Widget Notions WidgetNotions MoreNotions.
Import JSFacts DateFacts ComposerFacts WidgetFacts.

Lemma null_or_number_nullable n : null_or_number (nullable n).
Proof. destruct n as [x|]; [right; now exists x|now left]. Qed.

Lemma holds_numbers_selectedFromDate d : holds_numbers (selectedFromDate d).
Proof. unfold holds_numbers, selectedFromDate. cbn. repeat split; right; eauto. Qed.

Lemma holds_numbers_with_field s t n :
  holds_numbers s -> holds_numbers (with_field s t (nullable n)).
Proof.
  intros (Hd & Hm & Hy). pose proof (null_or_number_nullable n).
  destruct t; unfold holds_numbers; cbn; auto.
Qed.

Lemma holds_numbers_receive i p :
  holds_numbers (selected (state i)) ->
  holds_numbers (selected (state (componentWillReceiveProps i p))).
Proof.
  intros H. unfold componentWillReceiveProps. cbv zeta.
  destruct (strict_neq _ _ && instanceof_Date _); [|exact H].
  destruct (value p); [apply holds_numbers_selectedFromDate|exact H].
Qed.

Lemma selectedValue_number_or_empty v : number_or_empty (selectedValue v).
Proof.
  unfold selectedValue. destruct v; cbn; try (now left). right. eauto.
Qed.

(** X7.  The fields of the state only ever hold [null] or a Number,
    never the raw string of a control: the constructor puts [null], the
    value prop is taken apart into Numbers, and a change stores what
    [parseNum] returned.  So each [Select] is given a Number or the
    empty string as its value. *)
Theorem state_holds_numbers w :
  reachable w ->
  holds_numbers (selected (state (this w)))
  /\ forall currentYear s,
       In s (render currentYear (this w)) ->
       number_or_empty (select_value s)
       /\ (select_value s = Str ""
           <-> field (select_type s) (selected (state (this w))) = Null).
Proof.
  intros R.
  assert (H : holds_numbers (selected (state (this w)))).
  { induction R as [p clock first_id | w e _ IH _].
    - unfold mount, componentWillMount, constructor. cbn [this props value].
      destruct (value p) as [v|]; cbn.
      + apply holds_numbers_selectedFromDate.
      + unfold holds_numbers. cbn. repeat split; now left.
    - destruct e as [c | c | c raw | p | ms | ]; cbn [step]; try exact IH.
      + unfold handleSelectChange. cbn [this state setState selected].
        now apply holds_numbers_with_field.
      + unfold receiveProps. cbn [this state].
        now apply holds_numbers_receive. }
  split; [exact H|].
  intros cy s Hs. destruct H as (Hd & Hm & Hy).
  unfold render in Hs. cbn [In] in Hs.
  destruct Hs as [<- | [<- | [<- | []]]]; cbn [select_value select_type field];
    (split; [apply selectedValue_number_or_empty|]);
    unfold selectedValue.
  - destruct Hd as [-> | [n ->]]; cbn; split; congruence.
  - destruct Hm as [-> | [n ->]]; cbn; split; congruence.
  - destruct Hy as [-> | [n ->]]; cbn; split; congruence.
Qed.

Lemma state_holds_numbers_witness :
  let w := run_events (mount {| id := Str "b"; value := None |} 0 1)
             [Change day_select "12abc"; Change month_select "x"] in
  reachable w
  /\ selected (state (this w))
     = {| day := Num (Int 12); month := Null; year := Null |}
  /\ holds_numbers (selected (state (this w))).
Proof.
  intros w.
  assert (R : reachable w).
  { unfold w, run_events. cbn [fold_left].
    apply reachable_step; [|discriminate].
    apply reachable_step; [|discriminate].
    apply reachable_mount. }
  split; [exact R|]. split; [reflexivity|].
  exact (proj1 (state_holds_numbers w R)).
Defined.

Lemma filter_length_le' {A} (f : A -> bool) l :
  (List.length (filter f l) <= List.length l)%nat.
Proof.
  induction l as [|a l IH]; [cbn; lia|].
  cbn. destruct (f a); cbn; lia.
Qed.

Lemma clearTimeout_frame w i :
  now (clearTimeout w i) = now w
  /\ (List.length (timers (clearTimeout w i)) <= List.length (timers w))%nat.
Proof.
  destruct i as [n|]; cbn; [|lia].
  split; [reflexivity|apply filter_length_le'].
Qed.

(** A live timer is due after now and within [BLUR_TIMEOUT]. *)
Lemma step_timer_due w e :
  holds_its_timer w ->
  (forall t, In t (timers (window w)) ->
             now (window w) < due t <= now (window w) + BLUR_TIMEOUT) ->
  forall t, In t (timers (window (step w e))) ->
            now (window (step w e)) < due t
            <= now (window (step w e)) + BLUR_TIMEOUT.
Proof.
  intros H D. destruct e as [c | c | c raw | p | ms | ]; cbn [step].
  - intros t Ht. cbn [handleSelectFocus window] in *.
    rewrite (proj1 (clearTimeout_frame _ _)).
    apply D. eapply clearTimeout_subset, Ht.
  - destruct (handleSelectBlur_spec w H) as (Ht & _ & Hn & _).
    cbv zeta in Ht, Hn. rewrite Ht, Hn.
    intros t [<- | []]. cbn [due]. unfold BLUR_TIMEOUT. lia.
  - exact D.
  - exact D.
  - intros t Ht. cbn [elapse window timers now] in *.
    apply filter_In in Ht. destruct Ht as [Ht Hd].
    specialize (D t Ht).
    destruct (Z.leb_spec (due t) (now (window w) + Z.max 0 ms));
      [discriminate|]. lia.
  - intros t Ht. cbn [componentWillUnmount window] in *.
    rewrite (proj1 (clearTimeout_frame _ _)).
    apply D. eapply clearTimeout_subset, Ht.
Qed.

Lemma step_one_timer w e :
  holds_its_timer w ->
  (List.length (timers (window w)) <= 1)%nat ->
  (List.length (timers (window (step w e))) <= 1)%nat.
Proof.
  intros H L. destruct e as [c | c | c raw | p | ms | ]; cbn [step].
  - cbn [handleSelectFocus window].
    pose proof (proj2 (clearTimeout_frame (window w)
                         (blurTimeoutId (this w)))). lia.
  - destruct (handleSelectBlur_spec w H) as (Ht & _).
    cbv zeta in Ht. rewrite Ht. cbn. lia.
  - exact L.
  - exact L.
  - cbn [elapse window timers].
    pose proof (filter_length_le'
                  (fun t => negb (due t <=? now (window w) + Z.max 0 ms))
                  (timers (window w))). lia.
  - cbn [componentWillUnmount window].
    pose proof (proj2 (clearTimeout_frame (window w)
                         (blurTimeoutId (this w)))). lia.
Qed.

(** X8.  A mounted instance has at most one live timer; the instance
    holds its id, and the timer is due later than now and no later than
    [BLUR_TIMEOUT] from now. *)
Theorem at_most_one_timer w :
  reachable w ->
  (List.length (timers (window w)) <= 1)%nat
  /\ forall t, In t (timers (window w)) ->
               blurTimeoutId (this w) = Some (timer_id t)
               /\ run t = call_props_onBlur
               /\ now (window w) < due t <= now (window w) + BLUR_TIMEOUT.
Proof.
  intros R.
  assert (I : (List.length (timers (window w)) <= 1)%nat
              /\ forall t, In t (timers (window w)) ->
                           now (window w) < due t
                           <= now (window w) + BLUR_TIMEOUT).
  { induction R as [p clock first_id | w e R [IL ID] _].
    - cbn. split; [lia|]. intros t [].
    - pose proof (reachable_holds_its_timer w R) as H.
      split; [now apply step_one_timer|now apply step_timer_due]. }
  destruct I as [IL ID]. split; [exact IL|].
  intros t Ht. split; [now apply (reachable_holds_its_timer w R)|].
  split; [now destruct (run t)|now apply ID].
Qed.

Lemma at_most_one_timer_witness :
  let w := run_events (mount {| id := Str "b"; value := None |} 0 1)
             [Blur day_select; Elapse 30; Blur month_select; Elapse 20] in
  reachable w
  /\ timers (window w) = [mkTimer 2 130 call_props_onBlur]
  /\ (List.length (timers (window w)) <= 1)%nat.
Proof.
  intros w.
  assert (R : reachable w).
  { unfold w, run_events. cbn [fold_left].
    repeat (apply reachable_step; [|discriminate]).
    apply reachable_mount. }
  split; [exact R|]. split; [reflexivity|].
  exact (proj1 (at_most_one_timer w R)).
Defined.

(** X9.  A blur that no focus follows is notified once: [onBlur] is
    called when [BLUR_TIMEOUT] has passed, and not again. *)
Theorem blur_notified_once w a ms later :
  reachable w -> BLUR_TIMEOUT <= ms ->
  let final := run_events w ([Blur a; Elapse ms] ++ waiting later) in
  calls final = (calls w ++ [onBlur])%list
  /\ timers (window final) = []
  /\ blur_calls (calls final) = S (blur_calls (calls w)).
Proof.
  intros R Hms final.
  pose proof (reachable_holds_its_timer w R) as H.
  destruct (blur_then_wait_long w ms H Hms) as (Ht & Hc). cbv zeta in Ht, Hc.
  assert (E : final = run_events (elapse (handleSelectBlur w) ms)
                                 (waiting later))
    by (unfold final; now rewrite run_events_app).
  assert (C : calls final = (calls w ++ [onBlur])%list)
    by (rewrite E, waiting_no_timer by exact Ht; exact Hc).
  split; [exact C|]. split.
  - rewrite E. clear E C. revert Ht.
    generalize (elapse (handleSelectBlur w) ms).
    induction later as [|x l IH]; intros v Hv; [exact Hv|].
    cbn [waiting map run_events fold_left step].
    apply IH. now apply elapse_no_timer.
  - rewrite C, blur_calls_app. cbn. lia.
Qed.

Lemma blur_notified_once_witness :
  let w := mount {| id := Str "b"; value := None |} 0 1 in
  reachable w /\ BLUR_TIMEOUT <= 100
  /\ calls (run_events w ([Blur year_select; Elapse 100] ++ waiting [5000]))
     = [onBlur].
Proof.
  intros w. split; [apply reachable_mount|]. split; [unfold BLUR_TIMEOUT; lia|].
  apply (blur_notified_once w year_select 100 [5000] (reachable_mount _ _ _)).
  unfold BLUR_TIMEOUT. lia.
Defined.

(** X10.  A second blur before the first was notified starts the delay
    again: nothing is called until [BLUR_TIMEOUT] has passed since the
    second blur, however long ago the first one was, and then [onBlur] is
    called once for both. *)
Theorem blur_again_restarts_delay w a b ms1 :
  reachable w -> 0 <= ms1 < BLUR_TIMEOUT ->
  (forall ms2, 0 <= ms2 < BLUR_TIMEOUT ->
               calls (run_events w [Blur a; Elapse ms1; Blur b; Elapse ms2])
               = calls w)
  /\ (forall ms2 later,
         BLUR_TIMEOUT <= ms2 ->
         calls (run_events w ([Blur a; Elapse ms1; Blur b; Elapse ms2]
                              ++ waiting later))
         = (calls w ++ [onBlur])%list).
Proof.
  intros R H1.
  pose proof (reachable_holds_its_timer w R) as H.
  destruct (blur_then_wait w ms1 H H1) as (_ & _ & Hc). cbv zeta in Hc.
  set (w1 := elapse (handleSelectBlur w) ms1) in *.
  assert (R1 : reachable w1).
  { change w1 with (step (step w (Blur a)) (Elapse ms1)).
    repeat (apply reachable_step; [|discriminate]). exact R. }
  pose proof (reachable_holds_its_timer w1 R1) as Hw1.
  split.
  - intros ms2 H2.
    change (run_events w [Blur a; Elapse ms1; Blur b; Elapse ms2])
      with (elapse (handleSelectBlur w1) ms2).
    destruct (blur_then_wait w1 ms2 Hw1 H2) as (_ & _ & Hc2).
    cbv zeta in Hc2. now rewrite Hc2.
  - intros ms2 later H2.
    rewrite run_events_app.
    change (run_events w [Blur a; Elapse ms1; Blur b; Elapse ms2])
      with (elapse (handleSelectBlur w1) ms2).
    destruct (blur_then_wait_long w1 ms2 Hw1 H2) as (Ht & Hc2).
    cbv zeta in Ht, Hc2.
    rewrite waiting_no_timer by exact Ht. now rewrite Hc2, Hc.
Qed.

Lemma blur_again_restarts_delay_witness :
  let w := mount {| id := Str "b"; value := None |} 0 1 in
  reachable w /\ 0 <= 90 < BLUR_TIMEOUT /\ 0 <= 95 < BLUR_TIMEOUT
  /\ calls (run_events w [Blur day_select; Elapse 90;
                          Blur month_select; Elapse 95]) = []
  /\ BLUR_TIMEOUT <= 100
  /\ calls (run_events w ([Blur day_select; Elapse 90;
                           Blur month_select; Elapse 100] ++ waiting [300]))
     = [onBlur].
Proof.
  intros w.
  assert (B : forall z, 0 <= z < 100 -> 0 <= z < BLUR_TIMEOUT)
    by (unfold BLUR_TIMEOUT; lia).
  assert (G : BLUR_TIMEOUT <= 100) by (unfold BLUR_TIMEOUT; lia).
  destruct (blur_again_restarts_delay w day_select month_select 90
              (reachable_mount _ _ _) (B 90 ltac:(lia))) as [S L].
  split; [apply reachable_mount|]. split; [apply B; lia|].
  split; [apply B; lia|]. split; [exact (S 95 (B 95 ltac:(lia)))|].
  split; [exact G|]. exact (L 100 [300] G).
Defined.

Lemma blur_calls_run_timers ts :
  forall cs, blur_calls (fold_left run_timer ts cs)
             = (blur_calls cs + List.length ts)%nat.
Proof.
  induction ts as [|t ts IH]; intros cs; cbn [fold_left List.length]; [lia|].
  rewrite IH. unfold run_timer. destruct (run t).
  rewrite blur_calls_app. cbn. lia.
Qed.

Lemma filter_split_length {A} (f : A -> bool) l :
  (List.length (filter f l) + List.length (filter (fun x => negb (f x)) l)
   = List.length l)%nat.
Proof.
  induction l as [|a l IH]; [reflexivity|].
  cbn. destruct (f a); cbn; lia.
Qed.

Lemma step_blur_budget w e :
  (blur_calls (calls (step w e)) + List.length (timers (window (step w e)))
   <= blur_calls (calls w) + List.length (timers (window w))
      + blur_events [e])%nat.
Proof.
  destruct e as [c | c | c raw | p | ms | ]; cbn [step blur_events filter
                                                  List.length].
  - cbn [handleSelectFocus calls window]. rewrite blur_calls_app.
    pose proof (proj2 (clearTimeout_frame (window w)
                         (blurTimeoutId (this w)))). cbn. lia.
  - unfold handleSelectBlur, setTimeout. cbn [calls window timers].
    rewrite length_app.
    pose proof (proj2 (clearTimeout_frame (window w)
                         (blurTimeoutId (this w)))). cbn. lia.
  - cbn [handleSelectChange calls window]. rewrite blur_calls_app. cbn. lia.
  - cbn [receiveProps calls window]. lia.
  - cbn [elapse calls window timers]. rewrite blur_calls_run_timers.
    pose proof (filter_split_length
                  (fun t => due t <=? now (window w) + Z.max 0 ms)
                  (timers (window w))). lia.
  - cbn [componentWillUnmount calls window].
    pose proof (proj2 (clearTimeout_frame (window w)
                         (blurTimeoutId (this w)))). lia.
Qed.

(** X11.  [onBlur] is never called more often than a control was
    blurred: whatever happens to an instance, the calls of [onBlur]
    together with the timers still live are at most the blurs, plus what
    there was before. *)
Theorem no_more_notifications_than_blurs es :
  (forall w,
      (blur_calls (calls (run_events w es))
       + List.length (timers (window (run_events w es)))
       <= blur_calls (calls w) + List.length (timers (window w))
          + blur_events es)%nat)
  /\ (forall p clock first_id,
         (blur_calls (calls (run_events (mount p clock first_id) es))
          <= blur_events es)%nat).
Proof.
  assert (G : forall w,
             (blur_calls (calls (run_events w es))
              + List.length (timers (window (run_events w es)))
              <= blur_calls (calls w) + List.length (timers (window w))
                 + blur_events es)%nat).
  { induction es as [|e es IH]; intros w; [cbn; lia|].
    cbn [run_events fold_left]. fold (run_events (step w e) es).
    specialize (IH (step w e)). pose proof (step_blur_budget w e) as B.
    unfold blur_events in *. cbn [filter] in *.
    destruct e; cbn [List.length] in *; lia. }
  split; [exact G|].
  intros p clock first_id. specialize (G (mount p clock first_id)).
  cbn [mount calls window timers] in G.
  change (blur_calls []) with 0%nat in G. cbn [List.length] in G. lia.
Qed.

(** X12.  The selection after changes depends on the last raw value of
    each control only: changes of two different controls give the same
    selection in either order, and a second change of a control undoes
    the first. *)
Theorem changes_settle w c1 c2 r1 r2 r3 :
  (c1 <> c2 ->
   selected (state (this (run_events w [Change c1 r1; Change c2 r2])))
   = selected (state (this (run_events w [Change c2 r2; Change c1 r1]))))
  /\ selected (state (this (run_events w [Change c1 r1; Change c1 r2])))
     = selected (state (this (run_events w [Change c1 r2])))
  /\ selected (state (this
        (run_events w [Change day_select r1; Change month_select r2;
                       Change year_select r3])))
     = {| day := nullable (parseNum (Str r1));
          month := nullable (parseNum (Str r2));
          year := nullable (parseNum (Str r3)) |}.
Proof.
  split; [|split].
  - intros N. destruct c1, c2; try congruence; reflexivity.
  - destruct c1; reflexivity.
  - reflexivity.
Qed.

Lemma changes_settle_witness :
  let w := mount {| id := Str "b"; value := None |} 0 1 in
  month_select <> year_select
  /\ selected (state (this (run_events w [Change month_select "2";
                                          Change year_select "2024"])))
     = selected (state (this (run_events w [Change year_select "2024";
                                            Change month_select "2"]))).
Proof.
  intros w.
  assert (N : month_select <> year_select) by discriminate.
  split; [exact N|].
  exact (proj1 (changes_settle w month_select year_select "2" "2024" "") N).
Defined.

(** X13.  When the owner hands the date of [onChange] back as the new
    value, the selection stays what it is, whether or not the value is a
    new object; this needs the selected numbers to be below 2^53, so
    that the state holds what the date is made of. *)
Theorem echo_keeps_selection w d m y r p obj :
  Z.abs d < 2 ^ 53 -> Z.abs m < 2 ^ 53 -> Z.abs y < 2 ^ 53 ->
  selected (state (this w)) = numbers d m y ->
  dateFromSelected (selected (state (this w))) = Some r ->
  value p = Some obj -> date obj = r ->
  selected (state (this (step w (ReceiveProps p)))) = selected (state (this w)).
Proof.
  intros Bd Bm By Hs Hr Hp Ho.
  cbn [step receiveProps this state].
  unfold componentWillReceiveProps. cbv zeta. rewrite Hp.
  destruct (strict_neq _ _ && instanceof_Date _); [|reflexivity].
  cbn [setState state selected]. rewrite Ho, Hs.
  rewrite Hs in Hr.
  now apply (ComposerContract.decompose_compose d m y r).
Qed.

Lemma echo_keeps_selection_witness :
  let w := run_events (mount {| id := Str "b"; value := None |} 0 1)
             [Change day_select "29"; Change month_select "2";
              Change year_select "2024"] in
  let r := mkDate (Some 1709164800000) in
  let p := {| id := Str "b"; value := Some {| ref := 7; date := r |} |} in
  selected (state (this w)) = numbers 29 2 2024
  /\ dateFromSelected (selected (state (this w))) = Some r
  /\ selected (state (this (step w (ReceiveProps p)))) = numbers 29 2 2024.
Proof.
  intros w r p.
  assert (B : forall z, -3000 < z < 3000 -> Z.abs z < 2 ^ 53)
    by (intros; change (2 ^ 53) with 9007199254740992; lia).
  assert (S : selected (state (this w)) = numbers 29 2 2024) by reflexivity.
  assert (D : dateFromSelected (selected (state (this w))) = Some r)
    by reflexivity.
  split; [exact S|]. split; [exact D|].
  exact (eq_trans
           (echo_keeps_selection w 29 2 2024 r p {| ref := 7; date := r |}
              (B 29 ltac:(lia)) (B 2 ltac:(lia)) (B 2024 ltac:(lia))
              S D eq_refl eq_refl)
           S).
Defined.

Lemma In_range3_up n v k :
  In v (map (fun i => n + Z.of_nat i * 1) (seq 0 k))
  -> n <= v < n + Z.of_nat k.
Proof.
  intros H. apply in_map_iff in H. destruct H as (i & <- & Hi).
  apply in_seq in Hi. lia.
Qed.

Lemma In_days v : In v days -> 1 <= v <= 31.
Proof.
  intros H.
  change days with (map (fun i => 1 + Z.of_nat i * 1) (seq 0 31)) in H.
  apply In_range3_up in H. lia.
Qed.

Lemma In_months v : In v months -> 1 <= v <= 12.
Proof.
  intros H.
  change months with (map (fun i => 1 + Z.of_nat i * 1) (seq 0 12)) in H.
  apply In_range3_up in H. lia.
Qed.

Lemma In_years currentYear v :
  In v (years currentYear) -> currentYear - 79 <= v <= currentYear.
Proof.
  rewrite WidgetContract.years_spec. intros H.
  apply in_map_iff in H. destruct H as (i & <- & Hi).
  apply in_seq in Hi. lia.
Qed.

Lemma parseNum_target_value v :
  Z.abs v < 2 ^ 53 -> parseNum (Str (target_value v)) = Some (Int v).
Proof. intros H. exact (parseNum_Int v H). Qed.

(** X14.  Choosing an option stores its value: the string that the
    control reports for an option, the option's value in decimal, parses
    back to that value, for every option of the three controls (the
    current year being one that a Date can hold). *)
Theorem chosen_option_is_stored currentYear i s v w :
  -271821 <= currentYear <= 275760 ->
  In s (render currentYear i) -> In v (option_values s) ->
  let w' := handleSelectChange w (select_type s) (Str (target_value v)) in
  field (select_type s) (selected (state (this w'))) = Num (Int v)
  /\ (forall u, u <> select_type s ->
                field u (selected (state (this w')))
                = field u (selected (state (this w)))).
Proof.
  intros Hy Hs Hv w'.
  assert (B : Z.abs v < 2 ^ 53).
  { change (2 ^ 53) with 9007199254740992.
    unfold render in Hs. cbn [In] in Hs.
    destruct Hs as [<- | [<- | [<- | []]]]; unfold option_values in Hv;
      cbn [options] in Hv; rewrite WidgetContract.option_values_of in Hv.
    - apply In_days in Hv. lia.
    - apply In_months in Hv. lia.
    - apply In_years in Hv. lia. }
  unfold w', handleSelectChange. cbn [this state setState selected].
  rewrite (parseNum_target_value v B). cbn [nullable].
  split; [apply WidgetContract.field_with_field|].
  intros u Hu. apply WidgetContract.field_with_other. congruence.
Qed.

Lemma chosen_option_is_stored_witness :
  let i := constructor {| id := Str "b"; value := None |} in
  let w := mount {| id := Str "b"; value := None |} 0 1 in
  let s := {| select_id := None;
              select_value := Str "";
              select_type := type_year;
              options := empty_option
                         :: map (fun y => option_of y y (number_toString (Int y)))
                                (years 2026) |} in
  -271821 <= 2026 <= 275760
  /\ In s (render 2026 i) /\ In 1947 (option_values s)
  /\ target_value 1947 = "1947"
  /\ field type_year
       (selected (state (this (handleSelectChange w type_year (Str "1947")))))
     = Num (Int 1947).
Proof.
  intros i w s.
  assert (Y : -271821 <= 2026 <= 275760) by lia.
  assert (S : In s (render 2026 i)) by (right; right; left; reflexivity).
  assert (V : In 1947 (option_values s)).
  { unfold option_values, s. cbn [options].
    rewrite WidgetContract.option_values_of, WidgetContract.years_spec.
    apply in_map_iff. exists 79%nat. split; [reflexivity|].
    apply in_seq. lia. }
  split; [exact Y|]. split; [exact S|]. split; [exact V|].
  split; [reflexivity|].
  exact (proj1 (chosen_option_is_stored 2026 i s 1947 w Y S V)).
Defined.

Lemma last_call_snoc w cs c : calls w = (cs ++ [c])%list -> last_call w = Some c.
Proof.
  intros H. unfold last_call. rewrite H, map_app. cbn [map].
  apply last_last.
Qed.

Lemma offered_day_in_range y m d :
  100 <= y <= 275759 -> 1 <= m <= 12 -> 1 <= d <= days_in_month y m ->
  in_time_range (civil_day y m d * msPerDay).
Proof.
  intros Hy Hm Hd. unfold days_in_month in Hd.
  pose proof (leap_flag_range y) as Hl.
  pose proof (month_start_range _ (m - 1) Hl ltac:(lia)) as [S0 S1].
  pose proof (DayFromYear_le 100 y ltac:(lia)) as L.
  pose proof (DayFromYear_le (y + 1) 275760 ltac:(lia)) as U.
  rewrite DayFromYear_succ in U.
  change (DayFromYear 100) with (-683003) in L.
  change (DayFromYear 275760) with 99999744 in U.
  assert (DaysInYear y = 365 + (if leap_year y then 1 else 0))
    by (unfold DaysInYear; destruct (leap_year y); reflexivity).
  unfold in_time_range, civil_day, msPerDay. lia.
Qed.

(** X15.  With the current year between 179 and 275759 (so that no
    offered year is below 100 or at the end of what a Date can hold),
    choosing a day, a month and a year from the options leaves these
    three numbers selected and hands to [onChange] midnight UTC of that
    day when the month has such a day in that year, and [null] when it
    has not. *)
Theorem chosen_day_month_year currentYear w d m y :
  179 <= currentYear <= 275759 ->
  In d days -> In m months -> In y (years currentYear) ->
  let w' := run_events w [Change day_select (target_value d);
                          Change month_select (target_value m);
                          Change year_select (target_value y)] in
  selected (state (this w')) = numbers d m y
  /\ last_call w'
     = Some (onChange
               (if d <=? days_in_month y m
                then Some (mkDate (Some (civil_day y m d * msPerDay)))
                else None)).
Proof.
  intros Hc Hd Hm Hy w'.
  apply In_days in Hd. apply In_months in Hm. apply In_years in Hy.
  assert (B : forall z, -300000 <= z <= 300000 -> Z.abs z < 2 ^ 53)
    by (intros; change (2 ^ 53) with 9007199254740992; lia).
  assert (S : selected (state (this w')) = numbers d m y).
  { unfold w', run_events. cbn [fold_left step type_of].
    unfold handleSelectChange. cbn [this state setState selected with_field
                                    day month year].
    rewrite !parseNum_target_value by (apply B; lia). reflexivity. }
  split; [exact S|].
  assert (C : calls w'
              = ((calls (run_events w [Change day_select (target_value d);
                                       Change month_select (target_value m)]))
                 ++ [onChange (dateFromSelected (selected (state (this w'))))])%list)
    by reflexivity.
  rewrite (last_call_snoc _ _ _ C), S. f_equal. f_equal.
  destruct (ComposerContract.dateFromSelected_calendar (numbers d m y) d m y)
    as [Yes No]; try (apply parseNum_Int, B; lia).
  destruct (Z.leb_spec d (days_in_month y m)) as [Le|Gt].
  - apply Yes. unfold calendar_date.
    split; [lia|]. split; [lia|]. split; [lia|].
    apply offered_day_in_range; lia.
  - apply No. intros (_ & ? & _). lia.
Qed.

Lemma chosen_day_month_year_witness :
  let w := mount {| id := Str "b"; value := None |} 0 1 in
  179 <= 2026 <= 275759
  /\ In 30 days /\ In 2 months /\ In 2024 (years 2026)
  /\ last_call (run_events w [Change day_select "30"; Change month_select "2";
                              Change year_select "2024"])
     = Some (onChange None)
  /\ In 29 days
  /\ last_call (run_events w [Change day_select "29"; Change month_select "2";
                              Change year_select "2024"])
     = Some (onChange (Some (mkDate (Some 1709164800000)))).
Proof.
  intros w.
  assert (Y : 179 <= 2026 <= 275759) by lia.
  assert (D30 : In 30 days) by (vm_compute; tauto).
  assert (D29 : In 29 days) by (vm_compute; tauto).
  assert (M : In 2 months) by (vm_compute; tauto).
  assert (Y24 : In 2024 (years 2026)) by (vm_compute; tauto).
  split; [exact Y|]. split; [exact D30|]. split; [exact M|].
  split; [exact Y24|]. split; [|split; [exact D29|]].
  - exact (proj2 (chosen_day_month_year 2026 w 30 2 2024 Y D30 M Y24)).
  - exact (proj2 (chosen_day_month_year 2026 w 29 2 2024 Y D29 M Y24)).
Defined.

(** X16.  Editing a given date: when the instance is mounted with a
    Date of a year from 100 to 275759 and the user then chooses a day,
    the month and the year of the given date stay selected, and
    [onChange] receives that day of the same month and year, or [null]
    when the month has no such day. *)
Theorem edit_day_of_given_date p obj t clock k d' :
  value p = Some obj -> time_value (date obj) = Some t ->
  in_time_range t -> 100 <= YearFromTime t <= 275759 ->
  In d' days ->
  let y := YearFromTime t in
  let m := MonthFromTime t + 1 in
  let w := step (mount p clock k) (Change day_select (target_value d')) in
  selected (state (this w)) = numbers d' m y
  /\ calls w
     = [onChange (if d' <=? days_in_month y m
                  then Some (mkDate (Some (civil_day y m d' * msPerDay)))
                  else None)].
Proof.
  intros Hp Ht Hr Hy Hd y m w.
  apply In_days in Hd.
  destruct (fields_exact (date obj) t Ht Hr) as (Fy & Fm & Fd & By & Bm & Bd).
  pose proof (MonthFromTime_range t) as Rm.
  assert (B : Z.abs d' < 2 ^ 53)
    by (change (2 ^ 53) with 9007199254740992; lia).
  assert (S : selected (state (this w)) = numbers d' m y).
  { unfold w, mount. cbn [step type_of]. unfold handleSelectChange.
    cbn [this state setState selected].
    unfold componentWillMount, constructor. cbn [props]. rewrite Hp.
    cbn [setState state selected with_field].
    unfold selectedFromDate. cbn [day month year]. rewrite Fy, Fm.
    now rewrite (parseNum_target_value d' B). }
  split; [exact S|].
  assert (C : calls w = [onChange (dateFromSelected (selected (state (this w))))])
    by reflexivity.
  rewrite C, S. f_equal. f_equal.
  destruct (ComposerContract.dateFromSelected_calendar (numbers d' m y) d' m y)
    as [Yes No]; try (now apply parseNum_Int).
  destruct (Z.leb_spec d' (days_in_month y m)) as [Le|Gt].
  - apply Yes. unfold calendar_date. unfold y, m in *.
    split; [lia|]. split; [lia|]. split; [lia|].
    apply offered_day_in_range; lia.
  - apply No. intros (_ & ? & _). lia.
Qed.

Lemma edit_day_of_given_date_witness :
  let obj := {| ref := 3; date := mkDate (Some 1709208000000) |} in
  let p := {| id := Str "b"; value := Some obj |} in
  in_time_range 1709208000000
  /\ 100 <= YearFromTime 1709208000000 <= 275759
  /\ In 30 days
  /\ calls (step (mount p 0 1) (Change day_select "30")) = [onChange None]
  /\ In 1 days
  /\ calls (step (mount p 0 1) (Change day_select "1"))
     = [onChange (Some (mkDate (Some 1706745600000)))].
Proof.
  intros obj p.
  assert (R : in_time_range 1709208000000) by (unfold in_time_range; lia).
  assert (Y : 100 <= YearFromTime 1709208000000 <= 275759)
    by (change (YearFromTime 1709208000000) with 2024; lia).
  assert (D30 : In 30 days) by (vm_compute; tauto).
  assert (D1 : In 1 days) by (vm_compute; tauto).
  split; [exact R|]. split; [exact Y|]. split; [exact D30|].
  split; [|split; [exact D1|]].
  - exact (proj2 (edit_day_of_given_date p obj 1709208000000 0 1%nat 30
                    eq_refl eq_refl R Y D30)).
  - exact (proj2 (edit_day_of_given_date p obj 1709208000000 0 1%nat 1
                    eq_refl eq_refl R Y D1)).
Defined.

Lemma dateFromSelected_midnight sel r :
  dateFromSelected sel = Some r -> midnight_date r.
Proof.
  intros H.
  destruct (dateFromSelected_Some sel r H)
    as (dn & mn & yn & Pd & Pm & Py & Hr & V).
  apply parseNum_Some in Pd, Pm, Py.
  pose proof V as V'. apply isValidDate_spec in V'; try tauto.
  destruct V' as (Ey & Em & Ed).
  destruct (time_value r) as [t|] eqn:Ht.
  2:{ unfold getUTCFullYear, of_time in Ey. rewrite Ht in Ey.
      destruct Py as [_ Py]. congruence. }
  assert (Hrange : in_time_range t).
  { rewrite Hr in Ht. unfold built in Ht. now apply new_Date_time in Ht. }
  destruct (fields_exact r t Ht Hrange) as (Fy & Fm & Fd & _).
  rewrite Fy in Ey. rewrite Fm in Em. rewrite Fd in Ed.
  subst yn mn dn. rewrite Hr in V.
  apply built_valid_iff_calendar in V.
  pose proof (ComposerMore.built_calendar_time _ _ _ V) as E.
  rewrite <- Hr in E. rewrite E in Ht. cbn [time_value] in Ht.
  injection Ht as Ht.
  exists t. rewrite E. cbn [time_value].
  split; [now rewrite Ht|]. split; [exact Hrange|].
  split; [rewrite <- Ht; apply Z.mod_mul; discriminate|].
  destruct V as (_ & _ & N & _). exact N.
Qed.

Lemma Forall_run_timers ts :
  forall cs, Forall hands_midnight cs ->
             Forall hands_midnight (fold_left run_timer ts cs).
Proof.
  induction ts as [|t ts IH]; intros cs H; [exact H|].
  cbn [fold_left]. apply IH. unfold run_timer. destruct (run t).
  apply Forall_app. split; [exact H|]. repeat constructor.
Qed.

Lemma step_hands_midnight w e :
  Forall hands_midnight (calls w) -> Forall hands_midnight (calls (step w e)).
Proof.
  intros H. destruct e as [c | c | c raw | p | ms | ]; cbn [step].
  - cbn [handleSelectFocus calls]. apply Forall_app. split; [exact H|].
    repeat constructor.
  - unfold handleSelectBlur, setTimeout. exact H.
  - cbn [handleSelectChange calls]. apply Forall_app. split; [exact H|].
    constructor; [|constructor]. cbn [hands_midnight].
    destruct (dateFromSelected _) as [r|] eqn:E; [|exact I].
    eapply dateFromSelected_midnight, E.
  - exact H.
  - cbn [elapse calls]. now apply Forall_run_timers.
  - exact H.
Qed.

(** X17.  A date that [dateFromSelected] returns is midnight UTC of a
    day, inside the range of Date and outside the years 0 to 99; so
    [onChange] is never handed the invalid Date, a time of day, or a
    date of those years, whatever the user does to a mounted instance. *)
Theorem onChange_gets_midnights :
  (forall sel r, dateFromSelected sel = Some r -> midnight_date r)
  /\ (forall p clock k es,
         Forall hands_midnight (calls (run_events (mount p clock k) es))).
Proof.
  split; [exact dateFromSelected_midnight|].
  intros p clock k es.
  assert (G : forall w, Forall hands_midnight (calls w) ->
                        Forall hands_midnight (calls (run_events w es))).
  { induction es as [|e es IH]; intros w H; [exact H|].
    cbn [run_events fold_left]. apply IH. now apply step_hands_midnight. }
  apply G. constructor.
Qed.

Lemma onChange_gets_midnights_witness :
  dateFromSelected (numbers 29 2 2024) = Some (mkDate (Some 1709164800000))
  /\ midnight_date (mkDate (Some 1709164800000)).
Proof.
  assert (E : dateFromSelected (numbers 29 2 2024)
              = Some (mkDate (Some 1709164800000))) by reflexivity.
  split; [exact E|].
  exact (proj1 onChange_gets_midnights (numbers 29 2 2024) _ E).
Defined.

End WidgetMore.

(* ================================================================== *)
(** * More on the field wrapper *)
(* ================================================================== *)

Module FieldMore.
Import JS Field.



End FieldMore.
